(** * olive-motion-pi: the GCS2 binding [olive/drivers/pi/wrapper.pyx]

    A shallow embedding of the Cython wrapper around Physik Instrumente's
    GCS2 library, and the properties of its error protocol and command
    dispatch.

    The vendor library is opaque: it is a parameter of the development, a
    function from a native call (entry point and arguments) and the state of
    the outside world to a response and a new world.  Every method of the
    wrapper is a computation that threads this world, the attribute slots of
    the object it is invoked on, the ordered list of native calls it issues
    and the lines it prints.

    Arguments are taken at their declared Cython types, after the
    conversion done on entry of a [cpdef] method: a C [int] is an integer,
    a [str] a sequence of code points, a [pybool] a boolean.  The untyped
    argument [daisy_id] of [close_daisy_chain] is a Python object, converted
    to a C [int] inside the body, where the conversion can raise.  The sizes
    of the C floating types, which decide whether the [values] buffer of
    [get_parameter] binds, are a parameter of the development. *)

From Stdlib Require Import ZArith List String Ascii DecimalString Lia Bool.
From Stdlib.Strings Require Import Byte.
Import ListNotations.
Open Scope Z_scope.

(** ** Python and C data *)

(** A Python [str]: its code points. *)
Definition pystr := list N.

(** A Python [bytes] object, also what a [char *] points to. *)
Definition bytes := list byte.

(** A C [double], as its IEEE 754 binary64 bit pattern; the wrapper only
    passes doubles through. *)
Definition double := Z.

(** A string literal of the source. *)
Definition lit (s : string) : pystr := map N_of_ascii (list_ascii_of_string s).

(** [f"{z}"] for an integer. *)
Definition format_int (z : Z) : pystr := lit (NilZero.string_of_int (Z.to_int z)).

(** The exceptions the wrapper lets out.  [TypeError] and [OverflowError]
    come from the interpreter's conversion of an object to a C [int]; their
    messages vary with its version and are not kept. *)
Inductive Exn : Type :=
| RuntimeError (msg : pystr)
| AssertionError (msg : pystr)
| ValueError (msg : pystr)
| UnicodeEncodeError (position : nat) (code_point : N)
| TypeError
| OverflowError.

Inductive Outcome (A : Type) : Type :=
| Returned (a : A)
| Raised (e : Exn).
Arguments Returned {A} a.
Arguments Raised {A} e.

Definition returns_normally {A} (o : Outcome A) : bool :=
  match o with Returned _ => true | Raised _ => false end.

(** [s.encode('ascii')]: every code point below 128 becomes one byte; the
    first other code point raises [UnicodeEncodeError] at its position. *)
Fixpoint encode_ascii_from (pos : nat) (s : pystr) : Outcome bytes :=
  match s with
  | [] => Returned []
  | c :: s' =>
      if (c <? 128)%N then
        match Byte.of_N c with
        | Some b =>
            match encode_ascii_from (S pos) s' with
            | Returned bs => Returned (b :: bs)
            | Raised e => Raised e
            end
        | None => Raised (UnicodeEncodeError pos c)
        end
      else Raised (UnicodeEncodeError pos c)
  end.

Definition encode_ascii (s : pystr) : Outcome bytes := encode_ascii_from 0 s.

(** What a [char *] denotes as a C string: the bytes before the first NUL. *)
Fixpoint c_string (mem : bytes) : bytes :=
  match mem with
  | [] => []
  | b :: mem' => if Byte.eqb b x00 then [] else b :: c_string mem'
  end.

(** The code point U+FFFD that [errors='replace'] substitutes. *)
Definition replacement_character : N := 65533%N.

Definition decode_byte (b : byte) : N :=
  if (Byte.to_N b <? 128)%N then Byte.to_N b else replacement_character.

(** [c_buffer.decode('ascii', errors='replace')] on a [char *]: the C string
    at the pointer, each byte above 127 replaced. *)
Definition decode_ascii_replace (mem : bytes) : pystr :=
  map decode_byte (c_string mem).

(** A Python object handed to an argument without a declared type: an
    [int] (a [bool] is the integer 0 or 1), [None], or a [str].  Objects
    whose conversion depends on the Cython version (a [float]) or runs code
    of their own ([__index__]) are left out. *)
Inductive PyObject : Type :=
| ObjInt (z : Z)
| ObjNone
| ObjStr (s : pystr).

(** The range of a C [int], of 32 bits on every platform of the library. *)
Definition INT_MIN : Z := -2147483648.
Definition INT_MAX : Z := 2147483647.

(** The conversion Cython generates where an object is used as a C [int]:
    an integer in range converts to itself, one out of range raises
    [OverflowError], an object that is no integer raises [TypeError]. *)
Definition as_c_int (o : PyObject) : Outcome Z :=
  match o with
  | ObjInt z =>
      if (INT_MIN <=? z) && (z <=? INT_MAX) then Returned z else Raised OverflowError
  | ObjNone | ObjStr _ => Raised TypeError
  end.

(** The sizes of the C floating types on the platform the module is
    compiled for. *)
Class Platform : Type := {
  sizeof_double : Z;
  sizeof_long_double : Z
}.

(** GCC and Clang on x86-64 Linux: an 80-bit extended [long double] in 16
    bytes. *)
Definition linux_x86_64 : Platform :=
  {| sizeof_double := 8; sizeof_long_double := 16 |}.

(** MSVC on x64 Windows: [long double] is [double]. *)
Definition msvc_x64 : Platform :=
  {| sizeof_double := 8; sizeof_long_double := 8 |}.

(** What the acquisition of a [double[::1]] view raises on a buffer of
    another item type. *)
Definition dtype_mismatch : Exn :=
  ValueError (lit "Buffer dtype mismatch, expected 'double' but got 'long double'").

(** ** The enumerations *)

Inductive ReferenceMode : Type := Absolute | Relative.

Definition ReferenceMode_value (m : ReferenceMode) : Z :=
  match m with Absolute => 1 | Relative => 0 end.

Inductive ReferenceStrategy : Type := ReferenceSwitch | NegativeLimit | PositiveLimit.

Inductive ServoState : Type := OpenLoop | ClosedLoop.

Definition ServoState_value (s : ServoState) : Z :=
  match s with OpenLoop => 0 | ClosedLoop => 1 end.

(** The values the wrapper hands back to Python. *)
Inductive PyVal : Type :=
| PyNone
| PyBool (b : bool)
| PyInt (z : Z)
| PyFloat (d : double)
| PyStr (s : pystr)
| PyDoubles (ds : list double)
| PyReferenceMode (m : ReferenceMode)
| PyPair (a b : PyVal)
| PyTriple (a b c : PyVal).

(** The [strategy] argument of [start_reference_movement] is an untyped
    Python object (its annotation is not enforced): a member of
    [ReferenceStrategy], or any other value, which compares unequal to every
    member. *)
Inductive StrategyArg : Type :=
| Member (s : ReferenceStrategy)
| NotAMember (v : PyVal).

Definition strategy_eq (a : StrategyArg) (s : ReferenceStrategy) : bool :=
  match a, s with
  | Member ReferenceSwitch, ReferenceSwitch => true
  | Member NegativeLimit, NegativeLimit => true
  | Member PositiveLimit, PositiveLimit => true
  | _, _ => false
  end.

(** ** The native library surface ([gcs2.pxd]) *)

(** One constructor per entry point the wrapper calls, with the arguments in
    the order of the call.  A [char *] argument is the bytes it points to,
    a pointer to an input scalar is the scalar; pointers handed over to be
    written (buffers, out-parameters) are not arguments here, what the
    library writes through them is in the response. *)
Inductive NativeCall : Type :=
| PI_TranslateError (err_id nbytes : Z)
| PI_EnumerateUSB (nbytes : Z) (keyword : bytes)
| PI_ConnectUSB (desc : bytes)
| PI_ConnectUSBWithBaudRate (desc : bytes) (baudrate : Z)
| PI_TryConnectUSB (desc : bytes)
| PI_IsConnecting (thread_id : Z)
| PI_GetControllerID (thread_id : Z)
| PI_IsConnected (ctrl_id : Z)
| PI_SetDaisyChainScanMaxDeviceID (max_id : Z)
| PI_OpenUSBDaisyChain (desc : bytes) (nbytes : Z)
| PI_ConnectDaisyChainDevice (daisy_id index : Z)
| PI_CloseDaisyChain (daisy_id : Z)
| PI_CloseConnection (ctrl_id : Z)
| PI_GetError (ctrl_id : Z)
| PI_SetErrorCheck (ctrl_id : Z) (err_check : bool)
| PI_IsMoving (ctrl_id : Z) (axes : bytes)
| PI_IsControllerReady (ctrl_id : Z)
| PI_IsRunningMacro (ctrl_id : Z)
| PI_qSAI_ALL (ctrl_id nbytes : Z)
| PI_qSAI (ctrl_id nbytes : Z)
| PI_StopAll (ctrl_id : Z)
| PI_qHLP (ctrl_id nbytes : Z)
| PI_qIDN (ctrl_id nbytes : Z)
| PI_qHPA (ctrl_id nbytes : Z)
| PI_qTVI (ctrl_id nbytes : Z)
| PI_qVER (ctrl_id nbytes : Z)
| PI_qRON (ctrl_id : Z) (axis : bytes)
| PI_RON (ctrl_id : Z) (axis : bytes) (mode : Z)
| PI_qFRF (ctrl_id : Z) (axis : bytes)
| PI_FRF (ctrl_id : Z) (axis : bytes)
| PI_FNL (ctrl_id : Z) (axis : bytes)
| PI_FPL (ctrl_id : Z) (axis : bytes)
| PI_GOH (ctrl_id : Z) (axis : bytes)
| PI_HLT (ctrl_id : Z) (axis : bytes)
| PI_qPOS (ctrl_id : Z) (axis : bytes)
| PI_POS (ctrl_id : Z) (axis : bytes) (value : double)
| PI_MOV (ctrl_id : Z) (axis : bytes) (value : double)
| PI_MVR (ctrl_id : Z) (axis : bytes) (value : double)
| PI_qVEL (ctrl_id : Z) (axis : bytes)
| PI_VEL (ctrl_id : Z) (axis : bytes) (vel : double)
| PI_qACC (ctrl_id : Z) (axis : bytes)
| PI_ACC (ctrl_id : Z) (axis : bytes) (acc : double)
| PI_qTMN (ctrl_id : Z) (axis : bytes)
| PI_qTMX (ctrl_id : Z) (axis : bytes)
| PI_qCST (ctrl_id : Z) (axis : bytes) (nbytes : Z)
| PI_qSPA (ctrl_id : Z) (axis : bytes) (parameter : Z) (nbytes : Z)
| PI_qSEP (ctrl_id : Z) (axis : bytes) (parameter : Z) (nbytes : Z)
| PI_SPA (ctrl_id : Z) (axis : bytes) (parameter : Z) (values : list double)
         (string : bytes)
| PI_SEP (ctrl_id : Z) (prefix : bytes) (axis : bytes) (parameter : Z)
         (values : list double) (string : bytes)
| PI_SVO (ctrl_id : Z) (axis : bytes) (state : Z).

(** What a native call leaves behind: its return value, and the memory
    behind the pointers it was given to write through (from the pointer
    onwards), whichever of them the entry point has. *)
Record NativeResp : Type := {
  ret : Z;
  out_int : Z;
  out_double : double;
  out_buffer : bytes;
  out_values : list double
}.

(** ** Computations of the wrapper *)

Module Runtime.
Section WithNative.

Context {World : Type}.
Variable native : NativeCall -> World -> NativeResp * World.

(** The result of running a method on an object with attribute slots [S]. *)
Record Result (S A : Type) : Type := {
  outcome : Outcome A;
  self_after : S;
  world_after : World;
  calls : list NativeCall;
  stdout : list pystr
}.
Arguments outcome {S A} _.
Arguments self_after {S A} _.
Arguments world_after {S A} _.
Arguments calls {S A} _.
Arguments stdout {S A} _.

Definition M (S A : Type) : Type := S -> World -> Result S A.

Definition mret {S A} (a : A) : M S A :=
  fun s w => {| outcome := Returned a; self_after := s; world_after := w;
                calls := []; stdout := [] |}.

Definition raise {S A} (e : Exn) : M S A :=
  fun s w => {| outcome := Raised e; self_after := s; world_after := w;
                calls := []; stdout := [] |}.

Definition bind {S A B} (m : M S A) (k : A -> M S B) : M S B :=
  fun s w =>
    let r := m s w in
    match outcome r with
    | Returned a =>
        let r' := k a (self_after r) (world_after r) in
        {| outcome := outcome r'; self_after := self_after r';
           world_after := world_after r';
           calls := calls r ++ calls r'; stdout := stdout r ++ stdout r' |}
    | Raised e =>
        {| outcome := Raised e; self_after := self_after r;
           world_after := world_after r;
           calls := calls r; stdout := stdout r |}
    end.

(** A pure step that may raise. *)
Definition lift {S A} (o : Outcome A) : M S A :=
  match o with Returned a => mret a | Raised e => raise e end.

(** Reading the object's attribute slots. *)
Definition get_self {S} : M S S :=
  fun s w => {| outcome := Returned s; self_after := s; world_after := w;
                calls := []; stdout := [] |}.

(** Assigning the object's attribute slots. *)
Definition put_self {S} (s' : S) : M S unit :=
  fun _ w => {| outcome := Returned tt; self_after := s'; world_after := w;
                calls := []; stdout := [] |}.

(** What the caller of a constructor gets: the object as [__cinit__] left
    it, or the exception, in which case the object is discarded. *)
Definition constructed {S} (r : Result S unit) : Outcome S :=
  match outcome r with
  | Returned _ => Returned (self_after r)
  | Raised e => Raised e
  end.

(** One call into the vendor library. *)
Definition native_call {S} (c : NativeCall) : M S NativeResp :=
  fun s w =>
    let p := native c w in
    {| outcome := Returned (fst p); self_after := s; world_after := snd p;
       calls := [c]; stdout := [] |}.

(** [print(line)]. *)
Definition print {S} (line : pystr) : M S unit :=
  fun s w => {| outcome := Returned tt; self_after := s; world_after := w;
                calls := []; stdout := [line] |}.

(** [assert cond, msg]. *)
Definition py_assert {S} (cond : bool) (msg : pystr) : M S unit :=
  if cond then mret tt else raise (AssertionError msg).

(** [view.array(shape=(n, ), ...)]: Cython's array constructor rejects an
    extent that is not positive with
    [ValueError("Invalid shape in axis 0: n.")]. *)
Definition view_array {S} (n : Z) : M S unit :=
  if n <=? 0
  then raise (ValueError (lit "Invalid shape in axis 0: " ++ format_int n ++ lit "."))
  else mret tt.

(** [cdef double[::1] values = <an array of format 'g'>]: the assignment
    acquires a view of the array and checks its item type against [double].
    The format ['g'] is C's [long double]; the check compares the kind and
    the size of the two types, so it passes exactly where [long double] has
    the size of [double], and raises [ValueError] elsewhere. *)
Definition double_view_of_long_double {platform : Platform} {S} : M S unit :=
  if sizeof_long_double =? sizeof_double
  then mret tt
  else raise dtype_mismatch.

End WithNative.
End Runtime.

Import Runtime.
Arguments outcome {World S A} _.
Arguments self_after {World S A} _.
Arguments world_after {World S A} _.
Arguments calls {World S A} _.
Arguments stdout {World S A} _.

Declare Scope wrapper_scope.
Notation "x <- m ;; k" := (bind m (fun x => k))
  (at level 61, m at next level, right associativity) : wrapper_scope.
Notation "m ;; k" := (bind m (fun _ => k))
  (at level 61, right associativity) : wrapper_scope.
Open Scope wrapper_scope.

(** ** [translate_error] *)

Section TranslateError.

Context {World : Type}.
Variable native : NativeCall -> World -> NativeResp * World.

Definition buffer_too_small (nbytes : Z) : pystr :=
  lit "message buffer (" ++ format_int nbytes ++ lit " bytes) is too small".

(** [cdef translate_error(int err_id, int nbytes=1024)] *)
Definition translate_error {S} (err_id : Z) (nbytes : Z) : M S pystr :=
  view_array nbytes ;;
  r <- native_call native (PI_TranslateError err_id nbytes) ;;
  py_assert (0 <? ret r) (buffer_too_small nbytes) ;;
  mret (decode_ascii_replace (out_buffer r)).

Definition translate_error_default_nbytes : Z := 1024.

End TranslateError.

(** ** [cdef class Communication] *)

(** The class has no attribute. *)
Inductive CommunicationObj : Type := CommunicationSelf.

Module Communication.
Section WithNative.

Context {World : Type}.
Variable native : NativeCall -> World -> NativeResp * World.

Local Abbreviation M := (@M World).

(** [@staticmethod cdef check_error(int ret)] *)
Definition check_error {S} (ret : Z) : M S unit :=
  if ret <? 0 then
    print (lit "err_id: " ++ format_int ret) ;;
    msg <- translate_error native ret translate_error_default_nbytes ;;
    raise (RuntimeError msg)
  else mret tt.

Definition enumerate_usb (keyword : pystr) (nbytes : Z) : M CommunicationObj pystr :=
  view_array nbytes ;;
  b_keyword <- lift (encode_ascii keyword) ;;
  r <- native_call native (PI_EnumerateUSB nbytes b_keyword) ;;
  check_error (ret r) ;;
  mret (decode_ascii_replace (out_buffer r)).

Definition connect_usb (desc : pystr) (baudrate : Z) : M CommunicationObj Z :=
  b_desc <- lift (encode_ascii desc) ;;
  r <- (if baudrate <? 0
        then native_call native (PI_ConnectUSB b_desc)
        else native_call native (PI_ConnectUSBWithBaudRate b_desc baudrate)) ;;
  check_error (ret r) ;;
  mret (ret r).

Definition try_connect_usb (desc : pystr) : M CommunicationObj Z :=
  b_desc <- lift (encode_ascii desc) ;;
  r <- native_call native (PI_TryConnectUSB b_desc) ;;
  check_error (ret r) ;;
  mret (ret r).

Definition is_connecting (thread_id : Z) : M CommunicationObj bool :=
  r <- native_call native (PI_IsConnecting thread_id) ;;
  check_error (ret r) ;;
  mret (0 <? out_int r).

Definition get_controller_id (thread_id : Z) : M CommunicationObj Z :=
  r <- native_call native (PI_GetControllerID thread_id) ;;
  check_error (ret r) ;;
  mret (ret r).

Definition is_connected (ctrl_id : Z) : M CommunicationObj bool :=
  r <- native_call native (PI_IsConnected ctrl_id) ;;
  mret (0 <? ret r).

Definition set_daisy_chain_scan_max_device_id (max_id : Z) : M CommunicationObj unit :=
  r <- native_call native (PI_SetDaisyChainScanMaxDeviceID max_id) ;;
  check_error (ret r).

Definition open_usb_daisy_chain (desc : pystr) (nbytes : Z)
  : M CommunicationObj (Z * Z * pystr) :=
  view_array nbytes ;;
  b_desc <- lift (encode_ascii desc) ;;
  r <- native_call native (PI_OpenUSBDaisyChain b_desc nbytes) ;;
  check_error (ret r) ;;
  mret (ret r, out_int r, decode_ascii_replace (out_buffer r)).

Definition connect_daisy_chain_device (daisy_id index : Z) : M CommunicationObj Z :=
  r <- native_call native (PI_ConnectDaisyChainDevice daisy_id index) ;;
  check_error (ret r) ;;
  mret (ret r).

(** [cpdef close_daisy_chain(self, daisy_id)]: the argument has no declared
    type, so it enters the body as an object and is converted where it is
    passed to the native function, before the call. *)
Definition close_daisy_chain (daisy_id : PyObject) : M CommunicationObj unit :=
  c_daisy_id <- lift (as_c_int daisy_id) ;;
  native_call native (PI_CloseDaisyChain c_daisy_id) ;;
  mret tt.

Definition close_connection (ctrl_id : Z) : M CommunicationObj unit :=
  native_call native (PI_CloseConnection ctrl_id) ;;
  mret tt.

(** A call of one of the methods with its arguments (an omitted optional
    argument takes the default of the signature). *)
Inductive Method : Type :=
| Enumerate_usb (keyword : pystr) (nbytes : Z)
| Connect_usb (desc : pystr) (baudrate : Z)
| Try_connect_usb (desc : pystr)
| Is_connecting (thread_id : Z)
| Get_controller_id (thread_id : Z)
| Is_connected (ctrl_id : Z)
| Set_daisy_chain_scan_max_device_id (max_id : Z)
| Open_usb_daisy_chain (desc : pystr) (nbytes : Z)
| Connect_daisy_chain_device (daisy_id index : Z)
| Close_daisy_chain (daisy_id : PyObject)
| Close_connection (ctrl_id : Z).

Definition enumerate_usb_default_keyword : pystr := [].
Definition enumerate_usb_default_nbytes : Z := 1024.
Definition connect_usb_default_baudrate : Z := -1.
Definition open_usb_daisy_chain_default_nbytes : Z := 1024.

Definition fmap {S A B} (f : A -> B) (m : M S A) : M S B :=
  a <- m ;; mret (f a).

Definition invoke (m : Method) : M CommunicationObj PyVal :=
  match m with
  | Enumerate_usb keyword nbytes => fmap PyStr (enumerate_usb keyword nbytes)
  | Connect_usb desc baudrate => fmap PyInt (connect_usb desc baudrate)
  | Try_connect_usb desc => fmap PyInt (try_connect_usb desc)
  | Is_connecting thread_id => fmap PyBool (is_connecting thread_id)
  | Get_controller_id thread_id => fmap PyInt (get_controller_id thread_id)
  | Is_connected ctrl_id => fmap PyBool (is_connected ctrl_id)
  | Set_daisy_chain_scan_max_device_id max_id =>
      fmap (fun _ => PyNone) (set_daisy_chain_scan_max_device_id max_id)
  | Open_usb_daisy_chain desc nbytes =>
      fmap (fun t => PyTriple (PyInt (fst (fst t))) (PyInt (snd (fst t))) (PyStr (snd t)))
           (open_usb_daisy_chain desc nbytes)
  | Connect_daisy_chain_device daisy_id index =>
      fmap PyInt (connect_daisy_chain_device daisy_id index)
  | Close_daisy_chain daisy_id => fmap (fun _ => PyNone) (close_daisy_chain daisy_id)
  | Close_connection ctrl_id => fmap (fun _ => PyNone) (close_connection ctrl_id)
  end.

(** The methods that route their return code through [check_error]. *)
Definition checked (m : Method) : bool :=
  match m with
  | Is_connected _ | Close_daisy_chain _ | Close_connection _ => false
  | _ => true
  end.

End WithNative.
End Communication.

(** ** [cdef class ControllerCommand] *)

Record ControllerCommandObj : Type := { ctrl_id : Z }.

Module ControllerCommand.
Section WithNative.

Context {World : Type}.
Variable native : NativeCall -> World -> NativeResp * World.

Local Abbreviation M := (@M World).

(** [def __cinit__(self, int ctrl_id, *args)] *)
Definition __cinit__ (ctrl_id : Z) : M ControllerCommandObj unit :=
  put_self {| ctrl_id := ctrl_id |}.

(** The object as allocated, before [__cinit__] runs: its C slot is zero. *)
Definition allocated : ControllerCommandObj := {| ctrl_id := 0 |}.

(** [ControllerCommand(ctrl_id)] *)
Definition new (ctrl_id : Z) (w : World) : Outcome ControllerCommandObj :=
  constructed (__cinit__ ctrl_id allocated w).

(** [cdef check_error(self, int ret)] *)
Definition check_error (ret_ : Z) : M ControllerCommandObj unit :=
  if 0 <? ret_ then mret tt
  else
    self <- get_self ;;
    e <- native_call native (PI_GetError (ctrl_id self)) ;;
    msg <- translate_error native (ret e) translate_error_default_nbytes ;;
    raise (RuntimeError msg).

Definition set_error_check (err_check : bool) : M ControllerCommandObj unit :=
  self <- get_self ;;
  native_call native (PI_SetErrorCheck (ctrl_id self) err_check) ;;
  mret tt.

Definition is_moving (axes : pystr) : M ControllerCommandObj bool :=
  b_axes <- lift (encode_ascii axes) ;;
  self <- get_self ;;
  r <- native_call native (PI_IsMoving (ctrl_id self) b_axes) ;;
  check_error (ret r) ;;
  mret (0 <? out_int r).

Definition is_controller_ready : M ControllerCommandObj bool :=
  self <- get_self ;;
  r <- native_call native (PI_IsControllerReady (ctrl_id self)) ;;
  check_error (ret r) ;;
  mret (0 <? out_int r).

Definition is_running_macro : M ControllerCommandObj bool :=
  self <- get_self ;;
  r <- native_call native (PI_IsRunningMacro (ctrl_id self)) ;;
  check_error (ret r) ;;
  mret (0 <? out_int r).

(** The body is [pass]. *)
Definition get_axes_enable_status (axes : pystr) : M ControllerCommandObj unit :=
  mret tt.

(** The body is [pass]. *)
Definition set_axes_enable_status (axes : pystr) (state : bool)
  : M ControllerCommandObj unit :=
  mret tt.

Definition get_axes_id (include_deactivated : bool) (nbytes : Z)
  : M ControllerCommandObj pystr :=
  view_array nbytes ;;
  self <- get_self ;;
  r <- (if include_deactivated
        then native_call native (PI_qSAI_ALL (ctrl_id self) nbytes)
        else native_call native (PI_qSAI (ctrl_id self) nbytes)) ;;
  check_error (ret r) ;;
  mret (decode_ascii_replace (out_buffer r)).

Definition stop_all : M ControllerCommandObj unit :=
  self <- get_self ;;
  r <- native_call native (PI_StopAll (ctrl_id self)) ;;
  check_error (ret r).

Definition get_available_commands (nbytes : Z) : M ControllerCommandObj pystr :=
  view_array nbytes ;;
  self <- get_self ;;
  r <- native_call native (PI_qHLP (ctrl_id self) nbytes) ;;
  check_error (ret r) ;;
  mret (decode_ascii_replace (out_buffer r)).

Definition get_identification_string (nbytes : Z) : M ControllerCommandObj pystr :=
  view_array nbytes ;;
  self <- get_self ;;
  r <- native_call native (PI_qIDN (ctrl_id self) nbytes) ;;
  check_error (ret r) ;;
  mret (decode_ascii_replace (out_buffer r)).

Definition get_available_parameters (nbytes : Z) : M ControllerCommandObj pystr :=
  view_array nbytes ;;
  self <- get_self ;;
  r <- native_call native (PI_qHPA (ctrl_id self) nbytes) ;;
  check_error (ret r) ;;
  mret (decode_ascii_replace (out_buffer r)).

Definition get_valid_character_set (nbytes : Z) : M ControllerCommandObj pystr :=
  view_array nbytes ;;
  self <- get_self ;;
  r <- native_call native (PI_qTVI (ctrl_id self) nbytes) ;;
  check_error (ret r) ;;
  mret (decode_ascii_replace (out_buffer r)).

Definition get_version (nbytes : Z) : M ControllerCommandObj pystr :=
  view_array nbytes ;;
  self <- get_self ;;
  r <- native_call native (PI_qVER (ctrl_id self) nbytes) ;;
  check_error (ret r) ;;
  mret (decode_ascii_replace (out_buffer r)).

(** The defaults of the optional arguments. *)
Definition is_moving_default_axes : pystr := [].
Definition get_axes_id_default_include_deactivated : bool := true.
Definition get_axes_id_default_nbytes : Z := 512.
Definition get_available_commands_default_nbytes : Z := 512.
Definition get_identification_string_default_nbytes : Z := 256.
Definition get_available_parameters_default_nbytes : Z := 512.
Definition get_valid_character_set_default_nbytes : Z := 512.
Definition get_version_default_nbytes : Z := 512.

Inductive Method : Type :=
| Set_error_check (err_check : bool)
| Is_moving (axes : pystr)
| Is_controller_ready
| Is_running_macro
| Get_axes_enable_status (axes : pystr)
| Set_axes_enable_status (axes : pystr) (state : bool)
| Get_axes_id (include_deactivated : bool) (nbytes : Z)
| Stop_all
| Get_available_commands (nbytes : Z)
| Get_identification_string (nbytes : Z)
| Get_available_parameters (nbytes : Z)
| Get_valid_character_set (nbytes : Z)
| Get_version (nbytes : Z).

Definition fmap {S A B} (f : A -> B) (m : M S A) : M S B :=
  a <- m ;; mret (f a).

Definition invoke (m : Method) : M ControllerCommandObj PyVal :=
  match m with
  | Set_error_check err_check => fmap (fun _ => PyNone) (set_error_check err_check)
  | Is_moving axes => fmap PyBool (is_moving axes)
  | Is_controller_ready => fmap PyBool is_controller_ready
  | Is_running_macro => fmap PyBool is_running_macro
  | Get_axes_enable_status axes => fmap (fun _ => PyNone) (get_axes_enable_status axes)
  | Set_axes_enable_status axes state =>
      fmap (fun _ => PyNone) (set_axes_enable_status axes state)
  | Get_axes_id include_deactivated nbytes =>
      fmap PyStr (get_axes_id include_deactivated nbytes)
  | Stop_all => fmap (fun _ => PyNone) stop_all
  | Get_available_commands nbytes => fmap PyStr (get_available_commands nbytes)
  | Get_identification_string nbytes => fmap PyStr (get_identification_string nbytes)
  | Get_available_parameters nbytes => fmap PyStr (get_available_parameters nbytes)
  | Get_valid_character_set nbytes => fmap PyStr (get_valid_character_set nbytes)
  | Get_version nbytes => fmap PyStr (get_version nbytes)
  end.

(** The methods whose body calls [self.check_error]. *)
Definition checked (m : Method) : bool :=
  match m with
  | Set_error_check _ | Get_axes_enable_status _ | Set_axes_enable_status _ _ => false
  | _ => true
  end.

End WithNative.
End ControllerCommand.

(** ** [cdef class AxisCommand(ControllerCommand)] *)

(** The inherited [ctrl_id] slot and the class's own [axis_id]. *)
Record AxisCommandObj : Type := {
  base : ControllerCommandObj;
  axis_id : bytes
}.

(** [ReferenceMode(mode)]: the member with that value, [ValueError] when
    there is none. *)
Definition ReferenceMode_of_value (v : Z) : Outcome ReferenceMode :=
  if v =? 1 then Returned Absolute
  else if v =? 0 then Returned Relative
  else Raised (ValueError (format_int v ++ lit " is not a valid ReferenceMode")).

Module AxisCommand.
Section WithNative.

Context {World : Type} {platform : Platform}.
Variable native : NativeCall -> World -> NativeResp * World.

Local Abbreviation M := (@M World).

(** A method of the base class run on an [AxisCommand] object: it sees and
    may assign the inherited slots only. *)
Definition inherited {A} (m : M ControllerCommandObj A) : M AxisCommandObj A :=
  fun s w =>
    let r := m (base s) w in
    {| outcome := outcome r;
       self_after := {| base := self_after r; axis_id := axis_id s |};
       world_after := world_after r;
       calls := calls r; stdout := stdout r |}.

(** [def __cinit__(self, int ctrl_id, str axis_id)]: the right-hand side of
    the tuple assignment is evaluated, then both slots are assigned. *)
Definition __cinit__ (ctrl_id : Z) (axis_id : pystr) : M AxisCommandObj unit :=
  b_axis_id <- lift (encode_ascii axis_id) ;;
  put_self {| base := {| ctrl_id := ctrl_id |}; axis_id := b_axis_id |}.

(** The object as allocated: the integer slot is zero and the [bytes] slot
    holds no bytes object yet.  No method runs on it in this state: the
    constructor below either assigns the slot or raises. *)
Definition allocated : AxisCommandObj :=
  {| base := ControllerCommand.allocated; axis_id := [] |}.

(** [AxisCommand(ctrl_id, axis_id)]: the [__cinit__] of the base class runs
    first, with the same arguments, then the class's own. *)
Definition new (ctrl_id : Z) (axis_id : pystr) (w : World) : Outcome AxisCommandObj :=
  constructed
    ((inherited (ControllerCommand.__cinit__ ctrl_id) ;; __cinit__ ctrl_id axis_id)
       allocated w).

(** The defaults of the optional arguments. *)
Definition start_reference_movement_default_strategy : StrategyArg :=
  Member ReferenceSwitch.
Definition halt_default_axis : pystr := [].
Definition get_stage_type_default_nbytes : Z := 512.
Definition get_parameter_default_volatile : bool := false.
Definition get_parameter_default_nelem : Z := 1.
Definition get_parameter_default_nbytes : Z := 64.
Definition set_parameter_default_volatile : bool := false.
Definition set_parameter_default_nbytes : Z := 64.

Definition check_error (ret_ : Z) : M AxisCommandObj unit :=
  inherited (ControllerCommand.check_error native ret_).

Definition get_reference_mode : M AxisCommandObj ReferenceMode :=
  self <- get_self ;;
  r <- native_call native (PI_qRON (ctrl_id (base self)) (axis_id self)) ;;
  check_error (ret r) ;;
  lift (ReferenceMode_of_value (out_int r)).

Definition set_reference_mode (mode : Z) : M AxisCommandObj unit :=
  self <- get_self ;;
  r <- native_call native (PI_RON (ctrl_id (base self)) (axis_id self) mode) ;;
  check_error (ret r).

Definition is_referenced : M AxisCommandObj bool :=
  self <- get_self ;;
  r <- native_call native (PI_qFRF (ctrl_id (base self)) (axis_id self)) ;;
  check_error (ret r) ;;
  mret (0 <? out_int r).

Definition start_reference_movement (strategy : StrategyArg) : M AxisCommandObj unit :=
  self <- get_self ;;
  ret_ <- (if strategy_eq strategy ReferenceSwitch then
             r <- native_call native (PI_FRF (ctrl_id (base self)) (axis_id self)) ;;
             mret (ret r)
           else if strategy_eq strategy NegativeLimit then
             r <- native_call native (PI_FNL (ctrl_id (base self)) (axis_id self)) ;;
             mret (ret r)
           else if strategy_eq strategy PositiveLimit then
             r <- native_call native (PI_FPL (ctrl_id (base self)) (axis_id self)) ;;
             mret (ret r)
           else mret 0) ;;
  check_error ret_.

Definition go_to_home : M AxisCommandObj unit :=
  self <- get_self ;;
  r <- native_call native (PI_GOH (ctrl_id (base self)) (axis_id self)) ;;
  check_error (ret r).

Definition halt (axis : pystr) : M AxisCommandObj unit :=
  self <- get_self ;;
  r <- native_call native (PI_HLT (ctrl_id (base self)) (axis_id self)) ;;
  check_error (ret r).

Definition get_current_position : M AxisCommandObj double :=
  self <- get_self ;;
  r <- native_call native (PI_qPOS (ctrl_id (base self)) (axis_id self)) ;;
  check_error (ret r) ;;
  mret (out_double r).

Definition set_current_position (value : double) : M AxisCommandObj unit :=
  self <- get_self ;;
  r <- native_call native (PI_POS (ctrl_id (base self)) (axis_id self) value) ;;
  check_error (ret r).

Definition set_target_position (value : double) : M AxisCommandObj unit :=
  self <- get_self ;;
  r <- native_call native (PI_MOV (ctrl_id (base self)) (axis_id self) value) ;;
  check_error (ret r).

Definition set_relative_target_position (value : double) : M AxisCommandObj unit :=
  self <- get_self ;;
  r <- native_call native (PI_MVR (ctrl_id (base self)) (axis_id self) value) ;;
  check_error (ret r).

Definition get_velocity : M AxisCommandObj double :=
  self <- get_self ;;
  r <- native_call native (PI_qVEL (ctrl_id (base self)) (axis_id self)) ;;
  check_error (ret r) ;;
  mret (out_double r).

Definition set_velocity (vel : double) : M AxisCommandObj unit :=
  self <- get_self ;;
  r <- native_call native (PI_VEL (ctrl_id (base self)) (axis_id self) vel) ;;
  check_error (ret r).

Definition get_acceleration : M AxisCommandObj double :=
  self <- get_self ;;
  r <- native_call native (PI_qACC (ctrl_id (base self)) (axis_id self)) ;;
  check_error (ret r) ;;
  mret (out_double r).

Definition set_acceleration (acc : double) : M AxisCommandObj unit :=
  self <- get_self ;;
  r <- native_call native (PI_ACC (ctrl_id (base self)) (axis_id self) acc) ;;
  check_error (ret r).

Definition get_travel_range_min : M AxisCommandObj double :=
  self <- get_self ;;
  r <- native_call native (PI_qTMN (ctrl_id (base self)) (axis_id self)) ;;
  check_error (ret r) ;;
  mret (out_double r).

Definition get_travel_range_max : M AxisCommandObj double :=
  self <- get_self ;;
  r <- native_call native (PI_qTMX (ctrl_id (base self)) (axis_id self)) ;;
  check_error (ret r) ;;
  mret (out_double r).

Definition get_stage_type (nbytes : Z) : M AxisCommandObj pystr :=
  view_array nbytes ;;
  self <- get_self ;;
  r <- native_call native (PI_qCST (ctrl_id (base self)) (axis_id self) nbytes) ;;
  check_error (ret r) ;;
  mret (decode_ascii_replace (out_buffer r)).

(** The array of [nelem] items is constructed, then bound to the
    [double[::1]] variable, then the array of [nbytes] characters is
    constructed.  The [values] memoryview handed back has [nelem] elements,
    those the library left in the array. *)
Definition get_parameter (parameter : Z) (volatile : bool) (nelem nbytes : Z)
  : M AxisCommandObj (list double * pystr) :=
  self <- get_self ;;
  view_array nelem ;;
  double_view_of_long_double ;;
  view_array nbytes ;;
  r <- (if volatile
        then native_call native
               (PI_qSPA (ctrl_id (base self)) (axis_id self) parameter nbytes)
        else native_call native
               (PI_qSEP (ctrl_id (base self)) (axis_id self) parameter nbytes)) ;;
  check_error (ret r) ;;
  mret (firstn (Z.to_nat nelem) (out_values r), decode_ascii_replace (out_buffer r)).

(** The command-group prefix of the persisted entry point:
    ["100".encode('ascii')]. *)
Definition command_group_prefix : bytes := [x31; x30; x30]%byte.

Definition set_parameter (parameter : Z) (values : list double) (string : pystr)
    (volatile : bool) (nbytes : Z) : M AxisCommandObj unit :=
  self <- get_self ;;
  b_string <- lift (encode_ascii string) ;;
  r <- (if volatile
        then native_call native
               (PI_SPA (ctrl_id (base self)) (axis_id self) parameter values b_string)
        else native_call native
               (PI_SEP (ctrl_id (base self)) command_group_prefix (axis_id self)
                       parameter values b_string)) ;;
  check_error (ret r).

Definition set_servo_state (state : Z) : M AxisCommandObj unit :=
  self <- get_self ;;
  r <- native_call native (PI_SVO (ctrl_id (base self)) (axis_id self) state) ;;
  check_error (ret r).

Inductive Method : Type :=
| Inherited (m : ControllerCommand.Method)
| Get_reference_mode
| Set_reference_mode (mode : Z)
| Is_referenced
| Start_reference_movement (strategy : StrategyArg)
| Go_to_home
| Halt (axis : pystr)
| Get_current_position
| Set_current_position (value : double)
| Set_target_position (value : double)
| Set_relative_target_position (value : double)
| Get_velocity
| Set_velocity (vel : double)
| Get_acceleration
| Set_acceleration (acc : double)
| Get_travel_range_min
| Get_travel_range_max
| Get_stage_type (nbytes : Z)
| Get_parameter (parameter : Z) (volatile : bool) (nelem nbytes : Z)
| Set_parameter (parameter : Z) (values : list double) (string : pystr)
                (volatile : bool) (nbytes : Z)
| Set_servo_state (state : Z).

Definition fmap {S A B} (f : A -> B) (m : M S A) : M S B :=
  a <- m ;; mret (f a).

Definition invoke (m : Method) : M AxisCommandObj PyVal :=
  match m with
  | Inherited m' => inherited (ControllerCommand.invoke native m')
  | Get_reference_mode => fmap PyReferenceMode get_reference_mode
  | Set_reference_mode mode => fmap (fun _ => PyNone) (set_reference_mode mode)
  | Is_referenced => fmap PyBool is_referenced
  | Start_reference_movement strategy =>
      fmap (fun _ => PyNone) (start_reference_movement strategy)
  | Go_to_home => fmap (fun _ => PyNone) go_to_home
  | Halt axis => fmap (fun _ => PyNone) (halt axis)
  | Get_current_position => fmap PyFloat get_current_position
  | Set_current_position value => fmap (fun _ => PyNone) (set_current_position value)
  | Set_target_position value => fmap (fun _ => PyNone) (set_target_position value)
  | Set_relative_target_position value =>
      fmap (fun _ => PyNone) (set_relative_target_position value)
  | Get_velocity => fmap PyFloat get_velocity
  | Set_velocity vel => fmap (fun _ => PyNone) (set_velocity vel)
  | Get_acceleration => fmap PyFloat get_acceleration
  | Set_acceleration acc => fmap (fun _ => PyNone) (set_acceleration acc)
  | Get_travel_range_min => fmap PyFloat get_travel_range_min
  | Get_travel_range_max => fmap PyFloat get_travel_range_max
  | Get_stage_type nbytes => fmap PyStr (get_stage_type nbytes)
  | Get_parameter parameter volatile nelem nbytes =>
      fmap (fun p => PyPair (PyDoubles (fst p)) (PyStr (snd p)))
           (get_parameter parameter volatile nelem nbytes)
  | Set_parameter parameter values string volatile nbytes =>
      fmap (fun _ => PyNone) (set_parameter parameter values string volatile nbytes)
  | Set_servo_state state => fmap (fun _ => PyNone) (set_servo_state state)
  end.

(** The methods whose body calls [self.check_error]. *)
Definition checked (m : Method) : bool :=
  match m with
  | Inherited m' => ControllerCommand.checked m'
  | _ => true
  end.

End WithNative.
End AxisCommand.

(** ** A scripted native layer, for concrete runs *)

Record Mock : Type := {
  command_ret : Z;
  command_int : Z;
  last_error : Z;
  translate_ret : Z
}.

(** The message the scripted library writes for an error code. *)
Definition mock_message (err_id : Z) : bytes :=
  if err_id =? 0 then [x4e; x6f; x20; x65; x72; x72; x6f; x72]
  else if err_id =? 7 then [x50; x6f; x73; x20; x6f; x75; x74; x20; x6f; x66; x20;
                            x6c; x69; x6d; x69; x74; x73]
  else if err_id =? -1 then [x43; x4f; x4d; x20; x65; x72; x72; x6f; x72]
  else [x55; x6e; x6b; x6e; x6f; x77; x6e].

(** The world of the scripted library counts the calls it has served. *)
Definition mock_native (m : Mock) (c : NativeCall) (w : nat) : NativeResp * nat :=
  match c with
  | PI_GetError _ =>
      ({| ret := last_error m; out_int := 0; out_double := 0;
          out_buffer := []; out_values := [] |}, S w)
  | PI_TranslateError err_id _ =>
      ({| ret := translate_ret m; out_int := 0; out_double := 0;
          out_buffer := mock_message err_id ++ [x00; xff]; out_values := [] |}, S w)
  | _ =>
      ({| ret := command_ret m; out_int := command_int m; out_double := 0;
          out_buffer := [x31; x20; x32; x0a; x00]; out_values := [0; 0] |}, S w)
  end.

(** Scripts: every command succeeds; every command returns 0 and the
    controller's last error is 7; the same with a translation call that
    reports failure; a successful mode query that hands back 2; a
    communication call that returns -1, with a translation that succeeds
    and with one that reports failure. *)
Definition mock_ok : Mock :=
  {| command_ret := 1; command_int := 1; last_error := 0; translate_ret := 1 |}.
Definition mock_command_fails : Mock :=
  {| command_ret := 0; command_int := 0; last_error := 7; translate_ret := 1 |}.
Definition mock_translation_fails : Mock :=
  {| command_ret := 0; command_int := 0; last_error := 7; translate_ret := 0 |}.
Definition mock_mode_two : Mock :=
  {| command_ret := 1; command_int := 2; last_error := 0; translate_ret := 1 |}.
Definition mock_com_error : Mock :=
  {| command_ret := -1; command_int := 0; last_error := 0; translate_ret := 1 |}.
Definition mock_com_error_untranslated : Mock :=
  {| command_ret := -1; command_int := 0; last_error := 0; translate_ret := 0 |}.

(** The handle of axis "1" on controller 1. *)
Definition axis_one : AxisCommandObj :=
  {| base := {| ctrl_id := 1 |}; axis_id := [x31] |}.

(** ** Vocabulary of the properties *)

(** The two entry points of the error protocol. *)
Definition is_error_query (c : NativeCall) : bool :=
  match c with
  | PI_GetError _ | PI_TranslateError _ _ => true
  | _ => false
  end.

(** What the error path raises once the translation call has answered [t]:
    [RuntimeError] with the decoded message, or the sizing assertion of
    [translate_error] when the call did not report success. *)
Definition raised_after_translation (t : NativeResp) : Exn :=
  if 0 <? ret t
  then RuntimeError (decode_ascii_replace (out_buffer t))
  else AssertionError (buffer_too_small translate_error_default_nbytes).

Arguments lit : simpl never.
Arguments format_int : simpl never.
Arguments buffer_too_small : simpl never.
Arguments decode_ascii_replace : simpl never.

(** The three entry points that start a reference movement. *)
Definition is_reference_movement (c : NativeCall) : bool :=
  match c with
  | PI_FRF _ _ | PI_FNL _ _ | PI_FPL _ _ => true
  | _ => false
  end.

(** The value check a method makes on what a successful command handed
    back: only [get_reference_mode] has one, the conversion to the
    enumeration. *)
Definition rejected_value (m : AxisCommand.Method) (r : NativeResp) : option Exn :=
  match m with
  | AxisCommand.Get_reference_mode =>
      match ReferenceMode_of_value (out_int r) with
      | Raised e => Some e
      | Returned _ => None
      end
  | _ => None
  end.

(** The axis identifier a native call carries, for the entry points that
    address one axis. *)
Definition axis_argument (c : NativeCall) : option bytes :=
  match c with
  | PI_qRON _ axis | PI_RON _ axis _ | PI_qFRF _ axis
  | PI_FRF _ axis | PI_FNL _ axis | PI_FPL _ axis
  | PI_GOH _ axis | PI_HLT _ axis
  | PI_qPOS _ axis | PI_POS _ axis _ | PI_MOV _ axis _ | PI_MVR _ axis _
  | PI_qVEL _ axis | PI_VEL _ axis _ | PI_qACC _ axis | PI_ACC _ axis _
  | PI_qTMN _ axis | PI_qTMX _ axis | PI_qCST _ axis _
  | PI_qSPA _ axis _ _ | PI_qSEP _ axis _ _
  | PI_SPA _ axis _ _ _ | PI_SEP _ _ axis _ _ _
  | PI_SVO _ axis _ => Some axis
  | _ => None
  end.


(** A result with native calls and printed lines issued ahead of it. *)
Definition issued {World S A} (cs : list NativeCall) (lines : list pystr)
    (r : Result (World := World) S A) : Result S A :=
  {| outcome := outcome r; self_after := self_after r;
     world_after := world_after r;
     calls := cs ++ calls r; stdout := lines ++ stdout r |}.

(** ** Vocabulary of the further properties *)

Definition is_ascii_bytes (b : bytes) : bool :=
  forallb (fun x => (Byte.to_N x <? 128)%N) b.

Definition is_ascii_str (s : pystr) : bool :=
  forallb (fun c => (c <? 128)%N) s.

(** What [decode('ascii', errors='replace')] of a C string can hold: no NUL,
    and ASCII or the replacement character. *)
Definition decoded_code_point (c : N) : bool :=
  negb (c =? 0)%N && ((c <? 128)%N || (c =? replacement_character)%N).

(** The strings inside a value handed back to Python. *)
Fixpoint strings_of (v : PyVal) : list pystr :=
  match v with
  | PyStr s => [s]
  | PyPair a b => strings_of a ++ strings_of b
  | PyTriple a b c => strings_of a ++ strings_of b ++ strings_of c
  | _ => []
  end.

(** The [char *] input arguments of a native call. *)
Definition string_arguments (c : NativeCall) : list bytes :=
  match c with
  | PI_EnumerateUSB _ keyword => [keyword]
  | PI_ConnectUSB desc => [desc]
  | PI_ConnectUSBWithBaudRate desc _ => [desc]
  | PI_TryConnectUSB desc => [desc]
  | PI_OpenUSBDaisyChain desc _ => [desc]
  | PI_IsMoving _ axes => [axes]
  | PI_SPA _ axis _ _ string => [axis; string]
  | PI_SEP _ prefix axis _ _ string => [prefix; axis; string]
  | _ => match axis_argument c with Some axis => [axis] | None => [] end
  end.

(** The controller identifier a native call carries. *)
Definition ctrl_argument (c : NativeCall) : option Z :=
  match c with
  | PI_TranslateError _ _ | PI_EnumerateUSB _ _ | PI_ConnectUSB _
  | PI_ConnectUSBWithBaudRate _ _ | PI_TryConnectUSB _ | PI_IsConnecting _
  | PI_GetControllerID _ | PI_SetDaisyChainScanMaxDeviceID _
  | PI_OpenUSBDaisyChain _ _ | PI_ConnectDaisyChainDevice _ _
  | PI_CloseDaisyChain _ => None
  | PI_IsConnected k | PI_CloseConnection k | PI_GetError k
  | PI_SetErrorCheck k _ | PI_IsMoving k _ | PI_IsControllerReady k
  | PI_IsRunningMacro k | PI_qSAI_ALL k _ | PI_qSAI k _ | PI_StopAll k
  | PI_qHLP k _ | PI_qIDN k _ | PI_qHPA k _ | PI_qTVI k _ | PI_qVER k _
  | PI_qRON k _ | PI_RON k _ _ | PI_qFRF k _ | PI_FRF k _ | PI_FNL k _
  | PI_FPL k _ | PI_GOH k _ | PI_HLT k _ | PI_qPOS k _ | PI_POS k _ _
  | PI_MOV k _ _ | PI_MVR k _ _ | PI_qVEL k _ | PI_VEL k _ _ | PI_qACC k _
  | PI_ACC k _ _ | PI_qTMN k _ | PI_qTMX k _ | PI_qCST k _ _
  | PI_qSPA k _ _ _ | PI_qSEP k _ _ _ | PI_SPA k _ _ _ _
  | PI_SEP k _ _ _ _ _ | PI_SVO k _ _ => Some k
  end.

Definition is_last_error_query (c : NativeCall) : bool :=
  match c with PI_GetError _ => true | _ => false end.

Definition is_translation (c : NativeCall) : bool :=
  match c with PI_TranslateError _ _ => true | _ => false end.

(** The buffer size a translation call is given. *)
Definition translation_buffer (c : NativeCall) : option Z :=
  match c with PI_TranslateError _ nbytes => Some nbytes | _ => None end.

Arguments is_ascii_bytes : simpl never.

(** The size of the buffer a method allocates, for the methods that
    allocate one: their [nbytes].  [set_parameter] allocates none, and
    [get_parameter], which sets up two, is stated on its own. *)
Definition communication_extents (m : Communication.Method) : list Z :=
  match m with
  | Communication.Enumerate_usb _ nbytes => [nbytes]
  | Communication.Open_usb_daisy_chain _ nbytes => [nbytes]
  | _ => []
  end.

Definition controller_extents (m : ControllerCommand.Method) : list Z :=
  match m with
  | ControllerCommand.Get_axes_id _ nbytes => [nbytes]
  | ControllerCommand.Get_available_commands nbytes => [nbytes]
  | ControllerCommand.Get_identification_string nbytes => [nbytes]
  | ControllerCommand.Get_available_parameters nbytes => [nbytes]
  | ControllerCommand.Get_valid_character_set nbytes => [nbytes]
  | ControllerCommand.Get_version nbytes => [nbytes]
  | _ => []
  end.

Definition axis_extents (m : AxisCommand.Method) : list Z :=
  match m with
  | AxisCommand.Inherited m' => controller_extents m'
  | AxisCommand.Get_stage_type nbytes => [nbytes]
  | _ => []
  end.

(** The exception of [view.array] for the extent [n]. *)
Definition invalid_shape (n : Z) : Exn :=
  ValueError (lit "Invalid shape in axis 0: " ++ format_int n ++ lit ".").

(** The identifier inside a value handed back by a connecting method: the
    integer itself, or the first component of the daisy-chain triple. *)
Definition identifier_of (v : PyVal) : option Z :=
  match v with
  | PyInt z => Some z
  | PyTriple (PyInt z) _ _ => Some z
  | _ => None
  end.

(** The status queries, whose result is read from an out-parameter. *)
Definition communication_status_query (m : Communication.Method) : bool :=
  match m with Communication.Is_connecting _ => true | _ => false end.

Definition controller_status_query (m : ControllerCommand.Method) : bool :=
  match m with
  | ControllerCommand.Is_moving _ | ControllerCommand.Is_controller_ready
  | ControllerCommand.Is_running_macro => true
  | _ => false
  end.

Definition axis_status_query (m : AxisCommand.Method) : bool :=
  match m with
  | AxisCommand.Inherited m' => controller_status_query m'
  | AxisCommand.Is_referenced => true
  | _ => false
  end.

(** The name of an entry point, without its [PI_] prefix. *)
Definition mnemonic (c : NativeCall) : string :=
  match c with
  | PI_TranslateError _ _ => "TranslateError"
  | PI_EnumerateUSB _ _ => "EnumerateUSB"
  | PI_ConnectUSB _ => "ConnectUSB"
  | PI_ConnectUSBWithBaudRate _ _ => "ConnectUSBWithBaudRate"
  | PI_TryConnectUSB _ => "TryConnectUSB"
  | PI_IsConnecting _ => "IsConnecting"
  | PI_GetControllerID _ => "GetControllerID"
  | PI_IsConnected _ => "IsConnected"
  | PI_SetDaisyChainScanMaxDeviceID _ => "SetDaisyChainScanMaxDeviceID"
  | PI_OpenUSBDaisyChain _ _ => "OpenUSBDaisyChain"
  | PI_ConnectDaisyChainDevice _ _ => "ConnectDaisyChainDevice"
  | PI_CloseDaisyChain _ => "CloseDaisyChain"
  | PI_CloseConnection _ => "CloseConnection"
  | PI_GetError _ => "GetError"
  | PI_SetErrorCheck _ _ => "SetErrorCheck"
  | PI_IsMoving _ _ => "IsMoving"
  | PI_IsControllerReady _ => "IsControllerReady"
  | PI_IsRunningMacro _ => "IsRunningMacro"
  | PI_qSAI_ALL _ _ => "qSAI_ALL"
  | PI_qSAI _ _ => "qSAI"
  | PI_StopAll _ => "StopAll"
  | PI_qHLP _ _ => "qHLP"
  | PI_qIDN _ _ => "qIDN"
  | PI_qHPA _ _ => "qHPA"
  | PI_qTVI _ _ => "qTVI"
  | PI_qVER _ _ => "qVER"
  | PI_qRON _ _ => "qRON"
  | PI_RON _ _ _ => "RON"
  | PI_qFRF _ _ => "qFRF"
  | PI_FRF _ _ => "FRF"
  | PI_FNL _ _ => "FNL"
  | PI_FPL _ _ => "FPL"
  | PI_GOH _ _ => "GOH"
  | PI_HLT _ _ => "HLT"
  | PI_qPOS _ _ => "qPOS"
  | PI_POS _ _ _ => "POS"
  | PI_MOV _ _ _ => "MOV"
  | PI_MVR _ _ _ => "MVR"
  | PI_qVEL _ _ => "qVEL"
  | PI_VEL _ _ _ => "VEL"
  | PI_qACC _ _ => "qACC"
  | PI_ACC _ _ _ => "ACC"
  | PI_qTMN _ _ => "qTMN"
  | PI_qTMX _ _ => "qTMX"
  | PI_qCST _ _ _ => "qCST"
  | PI_qSPA _ _ _ _ => "qSPA"
  | PI_qSEP _ _ _ _ => "qSEP"
  | PI_SPA _ _ _ _ _ => "SPA"
  | PI_SEP _ _ _ _ _ _ => "SEP"
  | PI_SVO _ _ _ => "SVO"
  end%string.

(** The GCS commands a method's docstring names, the alternatives of a
    docstring such as "qSEP/qSPA" one by one.  It is empty for a method
    without docstring and for the docstrings that give a command number
    ("#5", "#7", "#8", "#24"). *)
Definition controller_documented_commands (m : ControllerCommand.Method)
  : list string :=
  match m with
  | ControllerCommand.Get_axes_enable_status _ => ["qEAX"]
  | ControllerCommand.Set_axes_enable_status _ _ => ["EAX"]
  | ControllerCommand.Get_axes_id _ _ => ["qSAI"; "qSAI_ALL"]
  | ControllerCommand.Get_available_commands _ => ["qHLP"]
  | ControllerCommand.Get_identification_string _ => ["qIDN"]
  | ControllerCommand.Get_available_parameters _ => ["qHPA"]
  | ControllerCommand.Get_valid_character_set _ => ["qTVI"]
  | ControllerCommand.Get_version _ => ["qVER"]
  | _ => []
  end%string.

Definition documented_commands (m : AxisCommand.Method) : list string :=
  match m with
  | AxisCommand.Inherited m' => controller_documented_commands m'
  | AxisCommand.Get_reference_mode => ["qRON"]
  | AxisCommand.Set_reference_mode _ => ["RON"]
  | AxisCommand.Is_referenced => []
  | AxisCommand.Start_reference_movement _ => []
  | AxisCommand.Go_to_home => ["GOH"]
  | AxisCommand.Halt _ => ["HLT"]
  | AxisCommand.Get_current_position => ["qPOS"]
  | AxisCommand.Set_current_position _ => ["POS"]
  | AxisCommand.Set_target_position _ => ["MOV"]
  | AxisCommand.Set_relative_target_position _ => ["MVR"]
  | AxisCommand.Get_velocity => ["qVEL"]
  | AxisCommand.Set_velocity _ => ["VEL"]
  | AxisCommand.Get_acceleration => ["qACC"]
  | AxisCommand.Set_acceleration _ => ["ACC"]
  | AxisCommand.Get_travel_range_min => ["qTMN"]
  | AxisCommand.Get_travel_range_max => ["qTMX"]
  | AxisCommand.Get_stage_type _ => ["qCST"]
  | AxisCommand.Get_parameter _ _ _ _ => ["qSEP"; "qSPA"]
  | AxisCommand.Set_parameter _ _ _ _ _ => ["SEP"; "SPA"]
  | AxisCommand.Set_servo_state _ => ["SVO"]
  end%string.

(** The scalar a setter's entry point is handed through its value pointer:
    a double, or the integer of a mode or servo state. *)
Definition double_argument (c : NativeCall) : option double :=
  match c with
  | PI_POS _ _ value | PI_MOV _ _ value | PI_MVR _ _ value => Some value
  | PI_VEL _ _ vel => Some vel
  | PI_ACC _ _ acc => Some acc
  | _ => None
  end.

Definition int_argument (c : NativeCall) : option Z :=
  match c with
  | PI_RON _ _ mode => Some mode
  | PI_SVO _ _ state => Some state
  | _ => None
  end.

(** The scalar a setter is called with. *)
Definition setter_double (m : AxisCommand.Method) : option double :=
  match m with
  | AxisCommand.Set_current_position value
  | AxisCommand.Set_target_position value
  | AxisCommand.Set_relative_target_position value => Some value
  | AxisCommand.Set_velocity vel => Some vel
  | AxisCommand.Set_acceleration acc => Some acc
  | _ => None
  end.

Definition setter_int (m : AxisCommand.Method) : option Z :=
  match m with
  | AxisCommand.Set_reference_mode mode => Some mode
  | AxisCommand.Set_servo_state state => Some state
  | _ => None
  end.

(** The getters that hand back the double their command wrote. *)
Definition getter_double (m : AxisCommand.Method) : bool :=
  match m with
  | AxisCommand.Get_current_position | AxisCommand.Get_velocity
  | AxisCommand.Get_acceleration | AxisCommand.Get_travel_range_min
  | AxisCommand.Get_travel_range_max => true
  | _ => false
  end.


(** * Properties *)

Section Properties.

Context {World : Type} {platform : Platform}.
Variable native : NativeCall -> World -> NativeResp * World.

(** The two-step error protocol, as a property of one run of a method on a
    handle of controller [ctrl] started in world [w].  When the run issues a
    command [c] (a native call that is not one of the error queries): if [c]
    returned a positive value no error query follows and the method returns
    normally, unless the method's own check of the value handed back rejects
    it; if [c] returned zero or a negative value the run goes on with
    [PI_GetError ctrl] and [PI_TranslateError] on the code that query
    returned, and raises what the translation gives.  A run that returns
    normally issued exactly one call, a command that returned a positive
    value. *)
Definition two_step_protocol {S A} (ctrl : Z) (w : World)
    (rejected : NativeResp -> option Exn)
    (res : Result (World := World) S A) : Prop :=
  (forall c rest, calls res = c :: rest -> is_error_query c = false ->
     let r := fst (native c w) in
     let pe := native (PI_GetError ctrl) (snd (native c w)) in
     let pt := native (PI_TranslateError (ret (fst pe)) translate_error_default_nbytes)
                      (snd pe) in
     (0 < ret r ->
        rest = [] /\
        match rejected r with
        | None => returns_normally (outcome res) = true
        | Some e => outcome res = Raised e
        end) /\
     (ret r <= 0 ->
        rest = [PI_GetError ctrl;
                PI_TranslateError (ret (fst pe)) translate_error_default_nbytes] /\
        outcome res = Raised (raised_after_translation (fst pt)))) /\
  (returns_normally (outcome res) = true ->
     exists c, calls res = [c] /\ is_error_query c = false /\
               0 < ret (fst (native c w))).

(** A caller's use of one handle: method calls one after the other, each
    started on the slots and in the world the previous one left, whether it
    returned or raised.  The result is the final slots and world and all
    the native calls issued, in order. *)
Fixpoint session (ms : list AxisCommand.Method) (s : AxisCommandObj) (w : World)
  : AxisCommandObj * World * list NativeCall :=
  match ms with
  | [] => (s, w, [])
  | m :: ms' =>
      let r := AxisCommand.invoke native m s w in
      let rest := session ms' (self_after r) (world_after r) in
      (fst (fst rest), snd (fst rest), calls r ++ snd rest)
  end.


(** ** Equations of the computations *)

Lemma bind_mret {S A B} (a : A) (k : A -> M S B) (s : S) (w : World) :
  bind (mret a) k s w = k a s w.
Proof. unfold bind, mret. cbn. destruct (k a s w). reflexivity. Qed.

Lemma bind_raise {S A B} (e : Exn) (k : A -> M S B) (s : S) (w : World) :
  bind (raise e) k s w = raise e s w.
Proof. reflexivity. Qed.

Lemma bind_lift {S A B} (o : Outcome A) (k : A -> M S B) (s : S) (w : World) :
  bind (lift o) k s w =
  match o with Returned a => k a s w | Raised e => raise e s w end.
Proof. destruct o; [apply bind_mret | reflexivity]. Qed.

Lemma bind_get_self {S B} (k : S -> M S B) (s : S) (w : World) :
  bind get_self k s w = k s s w.
Proof. unfold bind, get_self. cbn. destruct (k s s w). reflexivity. Qed.

Lemma bind_native_call {S B} (c : NativeCall) (k : NativeResp -> M S B) (s : S) (w : World) :
  bind (native_call native c) k s w =
  issued [c] [] (k (fst (native c w)) s (snd (native c w))).
Proof. reflexivity. Qed.

Lemma bind_print {S B} (line : pystr) (k : unit -> M S B) (s : S) (w : World) :
  bind (print line) k s w = issued [] [line] (k tt s w).
Proof. reflexivity. Qed.

Lemma bind_view_array {S B} (n : Z) (k : unit -> M S B) (s : S) (w : World) :
  bind (view_array n) k s w =
  if n <=? 0
  then raise (ValueError (lit "Invalid shape in axis 0: " ++ format_int n ++ lit ".")) s w
  else k tt s w.
Proof.
  unfold view_array. destruct (n <=? 0); [reflexivity | apply bind_mret].
Qed.

Lemma bind_py_assert {S B} (cond : bool) (msg : pystr) (k : unit -> M S B) (s : S) (w : World) :
  bind (py_assert cond msg) k s w =
  if cond then k tt s w else raise (AssertionError msg) s w.
Proof.
  unfold py_assert. destruct cond; [apply bind_mret | reflexivity].
Qed.

Lemma bind_if {S A B} (b : bool) (m1 m2 : M S A) (k : A -> M S B) (s : S) (w : World) :
  bind (if b then m1 else m2) k s w = if b then bind m1 k s w else bind m2 k s w.
Proof. destruct b; reflexivity. Qed.

Lemma bind_assoc {S A B C} (m : M S A) (k : A -> M S B) (k' : B -> M S C)
    (s : S) (w : World) :
  bind (bind m k) k' s w = bind m (fun a => bind (k a) k') s w.
Proof.
  unfold bind. destruct (m s w) as [o s1 w1 cs1 out1]. cbn.
  destruct o as [a|e]; cbn; [|reflexivity].
  destruct (k a s1 w1) as [o2 s2 w2 cs2 out2]. cbn.
  destruct o2 as [b|e]; cbn.
  - rewrite !app_assoc. reflexivity.
  - reflexivity.
Qed.

(** ** The error translator *)

Lemma view_array_positive S (n : Z) (s : S) (w : World) :
  0 < n -> @view_array World S n s w = mret tt s w.
Proof.
  intros H. unfold view_array.
  destruct (n <=? 0) eqn:E; [apply Z.leb_le in E; lia | reflexivity].
Qed.

Lemma translate_error_run S (err_id nbytes : Z) (s : S) (w : World) :
  0 < nbytes ->
  let p := native (PI_TranslateError err_id nbytes) w in
  translate_error native err_id nbytes s w =
  {| outcome := if 0 <? ret (fst p)
                then Returned (decode_ascii_replace (out_buffer (fst p)))
                else Raised (AssertionError (buffer_too_small nbytes));
     self_after := s; world_after := snd p;
     calls := [PI_TranslateError err_id nbytes]; stdout := [] |}.
Proof.
  intros H p. unfold translate_error, bind.
  rewrite view_array_positive by assumption. cbn.
  fold p. unfold py_assert.
  destruct (0 <? ret (fst p)); reflexivity.
Qed.

(** For a buffer size that is zero or negative the buffer cannot be
    allocated: [ValueError] is raised and the native call is not made. *)
Lemma translate_error_rejects_extent S (err_id nbytes : Z) (s : S) (w : World) :
  nbytes <= 0 ->
  let res := translate_error native err_id nbytes s w in
  calls res = [] /\
  outcome res = Raised (ValueError (lit "Invalid shape in axis 0: "
                                      ++ format_int nbytes ++ lit ".")).
Proof.
  intros Hneg res. subst res. unfold translate_error.
  rewrite bind_view_array.
  destruct (nbytes <=? 0) eqn:E; [|apply Z.leb_gt in E; lia].
  split; reflexivity.
Qed.

(** C4, as amended.  For every error code and every positive buffer size,
    [translate_error] makes exactly the native [PI_TranslateError] call on
    that code and size, raises the sizing [AssertionError] exactly when the
    call returns a value that is not positive, and otherwise returns the
    message found in the buffer, decoded as ASCII with replacement of the
    invalid bytes.  For a buffer size that is zero or negative the
    allocation of the buffer raises [ValueError] and the native call is not
    made.  The default buffer size is 1024 bytes. *)
Theorem translate_error_sizing S (err_id nbytes : Z) (s : S) (w : World) :
  let res := translate_error native err_id nbytes s w in
  let r := fst (native (PI_TranslateError err_id nbytes) w) in
  (0 < nbytes ->
     calls res = [PI_TranslateError err_id nbytes] /\
     (ret r <= 0 <->
      outcome res = Raised (AssertionError (buffer_too_small nbytes))) /\
     outcome res = (if 0 <? ret r
                    then Returned (decode_ascii_replace (out_buffer r))
                    else Raised (AssertionError (buffer_too_small nbytes)))) /\
  (nbytes <= 0 ->
     calls res = [] /\
     outcome res = Raised (ValueError (lit "Invalid shape in axis 0: "
                                         ++ format_int nbytes ++ lit "."))) /\
  translate_error_default_nbytes = 1024.
Proof.
  intros res r. split; [|split; [|reflexivity]].
  - intros Hpos. subst res. rewrite translate_error_run by assumption.
    cbn. fold r. split; [reflexivity|]. split; [|reflexivity].
    destruct (0 <? ret r) eqn:E.
    + apply Z.ltb_lt in E. split; [lia | discriminate].
    + apply Z.ltb_ge in E. split; [reflexivity | intros _; exact E].
  - intros Hneg. exact (translate_error_rejects_extent S err_id nbytes s w Hneg).
Qed.

Ltac monad_step :=
  first
    [ rewrite bind_assoc | rewrite bind_mret | rewrite bind_raise
    | rewrite bind_lift | rewrite bind_get_self | rewrite bind_native_call
    | rewrite bind_print | rewrite bind_view_array | rewrite bind_py_assert
    | rewrite bind_if ].

Ltac monad_norm := repeat (monad_step; cbv beta).

Ltac branch_step :=
  match goal with
  | |- context [0 <? 0] => change (0 <? 0) with false
  | |- context [match encode_ascii ?x with _ => _ end] => destruct (encode_ascii x) eqn:?
  | |- context [match as_c_int ?x with _ => _ end] => destruct (as_c_int x) eqn:?
  | |- context [match ReferenceMode_of_value ?x with _ => _ end] =>
      destruct (ReferenceMode_of_value x) eqn:?
  | |- context [if ?b then _ else _] => destruct b eqn:?
  end.

Ltac order_facts :=
  repeat match goal with
  | H : (_ <? _) = true |- _ => apply Z.ltb_lt in H
  | H : (_ <? _) = false |- _ => apply Z.ltb_ge in H
  | H : (_ <=? _) = true |- _ => apply Z.leb_le in H
  | H : (_ <=? _) = false |- _ => apply Z.leb_gt in H
  end.

(** ** The communication layer *)

Lemma bind_Communication_check_error {S B} (z : Z) (k : unit -> M S B) (s : S) (w : World) :
  bind (Communication.check_error native z) k s w =
  if z <? 0 then
    let p := native (PI_TranslateError z translate_error_default_nbytes) w in
    {| outcome := Raised (raised_after_translation (fst p));
       self_after := s; world_after := snd p;
       calls := [PI_TranslateError z translate_error_default_nbytes];
       stdout := [lit "err_id: " ++ format_int z] |}
  else k tt s w.
Proof.
  unfold Communication.check_error. rewrite bind_if.
  destruct (z <? 0); [|apply bind_mret].
  unfold translate_error, translate_error_default_nbytes, raised_after_translation.
  monad_norm. cbn.
  destruct (0 <? ret (fst (native (PI_TranslateError z 1024) w))); 
  monad_norm; reflexivity.
Qed.

(** C2, as amended.  For every [Communication] method other than
    [is_connected], [close_daisy_chain] and [close_connection], on every
    run that reaches the native call: when the return code is negative the
    method prints the code, calls [PI_TranslateError] on that very code with
    the default buffer, and raises: [RuntimeError] carrying the translated
    message when the translation call returns a positive value, the sizing
    [AssertionError] of [translate_error] when it does not; when the return
    code is zero or positive no further native call is made and the method
    returns normally.  A run that makes no native call (an argument that
    cannot be encoded or a buffer that cannot be allocated) does not return
    normally. *)
Theorem communication_return_code_check (m : Communication.Method)
    (s : CommunicationObj) (w : World) :
  Communication.checked m = true ->
  let res := Communication.invoke native m s w in
  (forall c rest, calls res = c :: rest ->
     let r := fst (native c w) in
     let t := fst (native (PI_TranslateError (ret r) translate_error_default_nbytes)
                          (snd (native c w))) in
     is_error_query c = false /\
     (ret r < 0 ->
        rest = [PI_TranslateError (ret r) translate_error_default_nbytes] /\
        stdout res = [lit "err_id: " ++ format_int (ret r)] /\
        outcome res = Raised (raised_after_translation t)) /\
     (0 <= ret r -> rest = [] /\ returns_normally (outcome res) = true)) /\
  (calls res = [] -> returns_normally (outcome res) = false).
Proof.
  intros Hchecked res. subst res.
  destruct m; try discriminate Hchecked; clear Hchecked;
    unfold Communication.invoke, Communication.fmap,
      Communication.enumerate_usb, Communication.connect_usb,
      Communication.try_connect_usb, Communication.is_connecting,
      Communication.get_controller_id,
      Communication.set_daisy_chain_scan_max_device_id,
      Communication.open_usb_daisy_chain,
      Communication.connect_daisy_chain_device.
  all: repeat (first [monad_step | rewrite bind_Communication_check_error | branch_step];
               cbv beta).
  all: cbn; split;
    [ intros c rest Hc; inversion Hc; subst; clear Hc; order_facts; cbn;
      repeat split; intros; first [reflexivity | lia | discriminate]
    | intros Hc; first [discriminate Hc | reflexivity] ].
Qed.

(** ** The controller and axis layers *)

Lemma ControllerCommand_check_error_run (z : Z) (s : ControllerCommandObj) (w : World) :
  ControllerCommand.check_error native z s w =
  if 0 <? z then mret tt s w
  else
    let pe := native (PI_GetError (ctrl_id s)) w in
    let pt := native (PI_TranslateError (ret (fst pe)) translate_error_default_nbytes)
                     (snd pe) in
    {| outcome := Raised (raised_after_translation (fst pt));
       self_after := s; world_after := snd pt;
       calls := [PI_GetError (ctrl_id s);
                 PI_TranslateError (ret (fst pe)) translate_error_default_nbytes];
       stdout := [] |}.
Proof.
  unfold ControllerCommand.check_error.
  destruct (0 <? z); [reflexivity|].
  unfold translate_error, translate_error_default_nbytes, raised_after_translation.
  monad_norm. cbn.
  destruct (0 <? ret (fst (native (PI_TranslateError _ 1024) _)));
    monad_norm; reflexivity.
Qed.

Lemma bind_ControllerCommand_check_error {B} (z : Z)
    (k : unit -> M ControllerCommandObj B) (s : ControllerCommandObj) (w : World) :
  bind (ControllerCommand.check_error native z) k s w =
  if 0 <? z then k tt s w
  else
    let pe := native (PI_GetError (ctrl_id s)) w in
    let pt := native (PI_TranslateError (ret (fst pe)) translate_error_default_nbytes)
                     (snd pe) in
    {| outcome := Raised (raised_after_translation (fst pt));
       self_after := s; world_after := snd pt;
       calls := [PI_GetError (ctrl_id s);
                 PI_TranslateError (ret (fst pe)) translate_error_default_nbytes];
       stdout := [] |}.
Proof.
  unfold bind at 1. rewrite ControllerCommand_check_error_run.
  destruct (0 <? z); [|reflexivity].
  cbn. destruct (k tt s w); reflexivity.
Qed.

Lemma bind_AxisCommand_check_error {B} (z : Z)
    (k : unit -> M AxisCommandObj B) (s : AxisCommandObj) (w : World) :
  bind (AxisCommand.check_error native z) k s w =
  if 0 <? z then k tt s w
  else
    let pe := native (PI_GetError (ctrl_id (base s))) w in
    let pt := native (PI_TranslateError (ret (fst pe)) translate_error_default_nbytes)
                     (snd pe) in
    {| outcome := Raised (raised_after_translation (fst pt));
       self_after := s; world_after := snd pt;
       calls := [PI_GetError (ctrl_id (base s));
                 PI_TranslateError (ret (fst pe)) translate_error_default_nbytes];
       stdout := [] |}.
Proof.
  unfold bind at 1, AxisCommand.check_error, AxisCommand.inherited.
  rewrite ControllerCommand_check_error_run.
  destruct s as [b a]. destruct (0 <? z); cbn; [|reflexivity].
  destruct (k tt _ w); reflexivity.
Qed.

Ltac unfold_controller_methods :=
  unfold ControllerCommand.invoke, ControllerCommand.fmap,
    ControllerCommand.set_error_check, ControllerCommand.is_moving,
    ControllerCommand.is_controller_ready, ControllerCommand.is_running_macro,
    ControllerCommand.get_axes_enable_status,
    ControllerCommand.set_axes_enable_status, ControllerCommand.get_axes_id,
    ControllerCommand.stop_all, ControllerCommand.get_available_commands,
    ControllerCommand.get_identification_string,
    ControllerCommand.get_available_parameters,
    ControllerCommand.get_valid_character_set, ControllerCommand.get_version.

Ltac unfold_axis_methods :=
  unfold AxisCommand.invoke, AxisCommand.fmap,
    AxisCommand.get_reference_mode, AxisCommand.set_reference_mode,
    AxisCommand.is_referenced, AxisCommand.start_reference_movement,
    AxisCommand.go_to_home, AxisCommand.halt,
    AxisCommand.get_current_position, AxisCommand.set_current_position,
    AxisCommand.set_target_position, AxisCommand.set_relative_target_position,
    AxisCommand.get_velocity, AxisCommand.set_velocity,
    AxisCommand.get_acceleration, AxisCommand.set_acceleration,
    AxisCommand.get_travel_range_min, AxisCommand.get_travel_range_max,
    AxisCommand.get_stage_type, AxisCommand.get_parameter,
    AxisCommand.set_parameter, AxisCommand.set_servo_state,
    double_view_of_long_double.

Ltac run_method :=
  repeat (first [ monad_step
                | rewrite bind_ControllerCommand_check_error
                | rewrite bind_AxisCommand_check_error
                | branch_step ];
          cbv beta zeta).

Ltac finish_protocol :=
  cbn; split;
  [ intros c rest Hc Hq; inversion Hc; subst; clear Hc; order_facts;
    cbn in Hq |- *; try discriminate Hq;
    try match goal with H : ReferenceMode_of_value _ = _ |- _ => rewrite H end;
    split; intros; first [lia | split; first [reflexivity | assumption]]
  | intros Hn; first [discriminate Hn
                     | eexists; split; [reflexivity|];
                       split; [reflexivity | order_facts; assumption]] ].

Lemma controller_two_step (m : ControllerCommand.Method)
    (s : ControllerCommandObj) (w : World) :
  ControllerCommand.checked m = true ->
  two_step_protocol (ctrl_id s) w (fun _ => None)
    (ControllerCommand.invoke native m s w).
Proof.
  intros Hchecked. unfold two_step_protocol.
  destruct m; try discriminate Hchecked; clear Hchecked; unfold_controller_methods.
  all: run_method; finish_protocol.
Qed.

Lemma axis_two_step (m : AxisCommand.Method) (s : AxisCommandObj) (w : World) :
  AxisCommand.checked m = true ->
  two_step_protocol (ctrl_id (base s)) w (rejected_value m)
    (AxisCommand.invoke native m s w).
Proof.
  intros Hchecked.
  destruct m as [m'| | | | | | | | | | | | | | | | | | | |].
  1: { exact (controller_two_step m' (base s) w Hchecked). }
  all: clear Hchecked; unfold two_step_protocol, rejected_value; unfold_axis_methods.
  all: run_method; finish_protocol.
Qed.

(** C1, as amended.  For every method of [ControllerCommand] and of
    [AxisCommand] that calls [check_error], on every handle and in every
    world: when the method issues its native command and the command
    returns a strictly positive value, no error query is made and the
    method returns normally, except that [get_reference_mode] raises the
    enumeration's [ValueError] when the mode read back is neither 0 nor 1;
    when the command returns zero or a negative value the method goes on
    with exactly [PI_GetError(ctrl_id)] and then [PI_TranslateError] on the
    code that query returned (not on the command's own return value), and
    raises [RuntimeError] with the decoded translation when the translation
    call returns a positive value, the sizing [AssertionError] of
    [translate_error] otherwise.  A method returns normally only after
    exactly one native call, a command that returned a strictly positive
    value.  The second part states the same for a [ControllerCommand]
    handle, every one of which is the base of an axis handle. *)
Theorem command_error_protocol (m : AxisCommand.Method) (s : AxisCommandObj)
    (w : World) :
  AxisCommand.checked m = true ->
  two_step_protocol (ctrl_id (base s)) w (rejected_value m)
    (AxisCommand.invoke native m s w) /\
  (forall m', m = AxisCommand.Inherited m' ->
     two_step_protocol (ctrl_id (base s)) w (fun _ => None)
       (ControllerCommand.invoke native m' (base s) w)).
Proof.
  intros Hchecked. split.
  - apply axis_two_step. exact Hchecked.
  - intros m' ->. apply controller_two_step. exact Hchecked.
Qed.

(** C3, as amended.  For every strategy value that is none of
    [ReferenceSwitch], [NegativeLimit] and [PositiveLimit],
    [start_reference_movement] issues no native reference-movement call and
    never returns normally: its return code 0 is a failure for
    [check_error], which queries [PI_GetError(ctrl_id)], translates the code
    it returned and raises ([RuntimeError] with the translation, or the
    sizing [AssertionError] when the translation call does not report
    success). *)
Theorem unrecognized_strategy_raises (strategy : StrategyArg)
    (s : AxisCommandObj) (w : World) :
  strategy_eq strategy ReferenceSwitch = false ->
  strategy_eq strategy NegativeLimit = false ->
  strategy_eq strategy PositiveLimit = false ->
  let res := AxisCommand.start_reference_movement native strategy s w in
  let pe := native (PI_GetError (ctrl_id (base s))) w in
  let pt := native (PI_TranslateError (ret (fst pe)) translate_error_default_nbytes)
                   (snd pe) in
  filter is_reference_movement (calls res) = [] /\
  calls res = [PI_GetError (ctrl_id (base s));
               PI_TranslateError (ret (fst pe)) translate_error_default_nbytes] /\
  outcome res = Raised (raised_after_translation (fst pt)) /\
  returns_normally (outcome res) = false.
Proof.
  intros H1 H2 H3 res pe pt. subst res pe pt.
  unfold AxisCommand.start_reference_movement.
  rewrite bind_get_self. cbv beta. rewrite H1, H2, H3.
  rewrite bind_mret.
  pose proof (bind_AxisCommand_check_error 0 (fun u : unit => mret u) s w) as E.
  change (0 <? 0) with false in E. cbv beta iota zeta in E.
  assert (Hrun : AxisCommand.check_error native 0 s w =
                 bind (AxisCommand.check_error native 0) (fun u : unit => mret u) s w).
  { unfold bind. destruct (AxisCommand.check_error native 0 s w) as [o s1 w1 cs out].
    cbn. destruct o as [[]|e]; cbn; rewrite ?app_nil_r; reflexivity. }
  rewrite Hrun, E. cbn. repeat split.
Qed.


(** C6, as amended.  For every controller identifier, [is_connected] makes
    the one native call [PI_IsConnected], never raises, and returns a
    boolean that is true exactly when the native return value is strictly
    positive.  [close_connection], for every controller identifier, and
    [close_daisy_chain], for every argument that converts to a C [int],
    make the one native close call, never raise whatever it returns, and
    make no error query.  For an argument that does not convert (an object
    that is no integer, or an integer outside the range of a C [int])
    [close_daisy_chain] raises the conversion's [TypeError] or
    [OverflowError] and makes no native call. *)
Theorem connection_queries_and_close (ctrl_id : Z) (daisy_id : PyObject)
    (s : CommunicationObj) (w : World) :
  (let res := Communication.is_connected native ctrl_id s w in
   exists b : bool,
     outcome res = Returned b /\
     (b = true <-> 0 < ret (fst (native (PI_IsConnected ctrl_id) w))) /\
     calls res = [PI_IsConnected ctrl_id] /\ stdout res = []) /\
  (let res := Communication.close_daisy_chain native daisy_id s w in
   stdout res = [] /\
   match as_c_int daisy_id with
   | Returned z => outcome res = Returned tt /\ calls res = [PI_CloseDaisyChain z]
   | Raised e => outcome res = Raised e /\ calls res = []
   end) /\
  (let res := Communication.close_connection native ctrl_id s w in
   outcome res = Returned tt /\
   calls res = [PI_CloseConnection ctrl_id] /\ stdout res = []).
Proof.
  split; [|split].
  - exists (0 <? ret (fst (native (PI_IsConnected ctrl_id) w))).
    cbn. split; [reflexivity|]. split; [apply Z.ltb_lt|]. split; reflexivity.
  - cbv zeta. unfold Communication.close_daisy_chain. rewrite bind_lift.
    destruct (as_c_int daisy_id) as [z|e]; cbn; repeat split.
  - cbn. repeat split.
Qed.

(** C7, as amended.  For each of the three recognized strategies,
    [start_reference_movement] invokes exactly one native
    reference-movement call, as its first native call and on the handle's
    own controller and axis, and it is that strategy's entry point:
    [PI_FRF] for [ReferenceSwitch], [PI_FNL] for [NegativeLimit], [PI_FPL]
    for [PositiveLimit]; no strategy invokes another strategy's entry point.
    It is the only native call when it returns a positive value; when it
    returns zero or a negative value the error protocol's [PI_GetError] and
    [PI_TranslateError] follow it. *)
Theorem reference_strategy_dispatch (strategy : ReferenceStrategy)
    (s : AxisCommandObj) (w : World) :
  let res := AxisCommand.start_reference_movement native (Member strategy) s w in
  let ctrl := ctrl_id (base s) in
  let c := match strategy with
           | ReferenceSwitch => PI_FRF ctrl (axis_id s)
           | NegativeLimit => PI_FNL ctrl (axis_id s)
           | PositiveLimit => PI_FPL ctrl (axis_id s)
           end in
  let pe := native (PI_GetError ctrl) (snd (native c w)) in
  let pt := native (PI_TranslateError (ret (fst pe)) translate_error_default_nbytes)
                   (snd pe) in
  filter is_reference_movement (calls res) = [c] /\
  calls res = c :: (if 0 <? ret (fst (native c w)) then []
                    else [PI_GetError ctrl;
                          PI_TranslateError (ret (fst pe))
                            translate_error_default_nbytes]) /\
  outcome res = if 0 <? ret (fst (native c w)) then Returned tt
                else Raised (raised_after_translation (fst pt)).
Proof.
  intros res ctrl c pe pt. subst res ctrl c pe pt.
  unfold AxisCommand.start_reference_movement.
  rewrite bind_get_self. cbv beta.
  destruct strategy; cbn [strategy_eq]; cbv iota;
    rewrite bind_assoc, bind_native_call; cbv beta; rewrite bind_mret;
    unfold AxisCommand.check_error, AxisCommand.inherited;
    rewrite ControllerCommand_check_error_run;
    match goal with |- context [0 <? ?z] => destruct (0 <? z) end;
    cbn; repeat split.
Qed.

(** C8, as amended.  For every argument, [get_axes_enable_status] and
    [set_axes_enable_status] return [None]: they raise nothing, issue no
    native call and leave the handle as it was. *)
Theorem axes_enable_status_stubs (axes : pystr) (state : bool)
    (s : ControllerCommandObj) (w : World) :
  (let res := ControllerCommand.invoke native
                (ControllerCommand.Get_axes_enable_status axes) s w in
   outcome res = Returned PyNone /\ calls res = [] /\ self_after res = s) /\
  (let res := ControllerCommand.invoke native
                (ControllerCommand.Set_axes_enable_status axes state) s w in
   outcome res = Returned PyNone /\ calls res = [] /\ self_after res = s).
Proof. cbn. repeat split. Qed.

(** ** The axis identifier of a handle *)

Ltac finish_slots :=
  cbn; split; [reflexivity|];
  repeat constructor; cbn; intros; congruence.

Lemma controller_invoke_slots (m : ControllerCommand.Method)
    (s : ControllerCommandObj) (w : World) :
  self_after (ControllerCommand.invoke native m s w) = s /\
  Forall (fun c => axis_argument c = None)
         (calls (ControllerCommand.invoke native m s w)).
Proof.
  destruct m; unfold_controller_methods.
  all: run_method; finish_slots.
Qed.

Lemma axis_invoke_slots (m : AxisCommand.Method) (s : AxisCommandObj) (w : World) :
  self_after (AxisCommand.invoke native m s w) = s /\
  Forall (fun c => forall a, axis_argument c = Some a -> a = axis_id s)
         (calls (AxisCommand.invoke native m s w)).
Proof.
  destruct m as [m'| | | | | | | | | | | | | | | | | | | |].
  1: { destruct (controller_invoke_slots m' (base s) w) as [Hself Hcalls].
       cbn. rewrite Hself. split; [destruct s; reflexivity|].
       eapply Forall_impl; [|exact Hcalls].
       cbn. intros c Hnone a Hsome. congruence. }
  all: unfold_axis_methods.
  all: run_method; finish_slots.
Qed.

Lemma byte_of_ascii_code_point (c : N) :
  (c <? 128)%N = true -> exists x, Byte.of_N c = Some x.
Proof.
  intros Hc. apply N.ltb_lt in Hc.
  pose proof (Byte.to_of_N_option_map c) as H.
  destruct (Byte.of_N c) as [x|]; [exists x; reflexivity|].
  cbn in H. destruct (c <=? 255)%N eqn:E; [discriminate H|].
  apply N.leb_gt in E. lia.
Qed.

Lemma encode_ascii_from_accepts (s : pystr) (pos : nat) :
  is_ascii_str s = true -> exists b, encode_ascii_from pos s = Returned b.
Proof.
  revert pos. induction s as [|c s IH]; intros pos H; cbn in *.
  - exists []. reflexivity.
  - apply andb_true_iff in H. destruct H as [Hc Hs]. rewrite Hc.
    destruct (byte_of_ascii_code_point c Hc) as [x ->].
    destruct (IH (S pos) Hs) as [bs ->]. exists (x :: bs). reflexivity.
Qed.






(** C10.  For every two values of the [axis] argument of [halt], the empty
    default included, the runs of [halt] on the same handle in the same
    world are identical in every respect (outcome, handle, world, native
    calls, output): the argument is never read.  The native [PI_HLT] call
    is the first call and receives the handle's stored [ctrl_id] and
    [axis_id]. *)
Theorem halt_ignores_axis_argument (axis1 axis2 : pystr)
    (s : AxisCommandObj) (w : World) :
  AxisCommand.halt native axis1 s w = AxisCommand.halt native axis2 s w /\
  AxisCommand.halt native AxisCommand.halt_default_axis s w
  = AxisCommand.halt native axis1 s w /\
  exists rest,
    calls (AxisCommand.halt native axis1 s w)
    = PI_HLT (ctrl_id (base s)) (axis_id s) :: rest.
Proof.
  split; [reflexivity|]. split; [reflexivity|].
  unfold AxisCommand.halt. rewrite bind_get_self. cbv beta.
  rewrite bind_native_call. cbn. eexists. reflexivity.
Qed.

(** * Further properties *)

(** ** Encoding and decoding *)

Lemma encode_ascii_from_bytes (s : pystr) (pos : nat) (b : bytes) :
  encode_ascii_from pos s = Returned b ->
  map Byte.to_N b = s /\ is_ascii_bytes b = true.
Proof.
  revert pos b. induction s as [|c s IH]; intros pos b H; cbn in H.
  - injection H as <-. split; reflexivity.
  - destruct (c <? 128)%N eqn:Hc; [|discriminate H].
    destruct (Byte.of_N c) as [x|] eqn:Hx; [|discriminate H].
    destruct (encode_ascii_from (S pos) s) as [bs|e] eqn:Hs; [|discriminate H].
    injection H as <-. destruct (IH _ _ Hs) as [Hmap Hascii].
    apply Byte.to_of_N in Hx. unfold is_ascii_bytes in *.
    cbn [map forallb]. rewrite Hx, Hmap, Hc, Hascii.
    split; reflexivity.
Qed.

Lemma decode_byte_ascii (x : byte) :
  (Byte.to_N x <? 128)%N = true -> decode_byte x = Byte.to_N x.
Proof. intros H. unfold decode_byte. rewrite H. reflexivity. Qed.

Lemma c_string_terminated (b junk : bytes) :
  Forall (fun x => x <> x00) b -> c_string (b ++ x00 :: junk) = b.
Proof.
  induction 1 as [|x b Hx _ IH]; cbn; [reflexivity|].
  destruct (Byte.eqb x x00) eqn:E.
  - apply Byte.byte_dec_bl in E. contradiction.
  - rewrite IH. reflexivity.
Qed.

(** X1.  A string that is ASCII and holds no NUL survives the trip to the
    native layer and back: the bytes [encode('ascii')] gives are one per
    code point, the C string the library sees at the pointer is exactly
    these bytes, and when the library hands the same C string back in a
    buffer, whatever follows its terminator, the decoded result is the
    original string. *)
Theorem ascii_round_trip (s : pystr) (b junk : bytes) :
  encode_ascii s = Returned b ->
  Forall (fun c => c <> 0%N) s ->
  map Byte.to_N b = s /\
  c_string (b ++ x00 :: junk) = b /\
  decode_ascii_replace (b ++ x00 :: junk) = s.
Proof.
  intros Henc Hnul. unfold encode_ascii in Henc.
  destruct (encode_ascii_from_bytes s 0 b Henc) as [Hmap Hascii].
  assert (Hb : Forall (fun x => x <> x00) b).
  { rewrite <- Hmap in Hnul. clear -Hnul.
    induction b as [|x b IH]; constructor.
    - inversion Hnul as [|? ? Hx _]; subst. intros ->. apply Hx. reflexivity.
    - apply IH. inversion Hnul; assumption. }
  split; [exact Hmap|]. split; [apply c_string_terminated; exact Hb|].
  unfold decode_ascii_replace. rewrite c_string_terminated by exact Hb.
  rewrite <- Hmap. apply map_ext_in.
  intros x Hx. apply decode_byte_ascii.
  unfold is_ascii_bytes in Hascii. rewrite forallb_forall in Hascii.
  apply Hascii. exact Hx.
Qed.

Lemma decoded_alphabet (mem : bytes) :
  forallb decoded_code_point (decode_ascii_replace mem) = true.
Proof.
  unfold decode_ascii_replace.
  induction mem as [|x mem IH]; cbn; [reflexivity|].
  destruct (Byte.eqb x x00) eqn:E; [reflexivity|].
  cbn. rewrite IH, andb_true_r.
  unfold decoded_code_point, decode_byte.
  destruct (Byte.to_N x <? 128)%N eqn:Hx.
  - rewrite Hx. cbn. rewrite andb_true_r. apply negb_true_iff, N.eqb_neq.
    intros H0. apply Byte.eqb_false in E. apply E.
    apply (f_equal Byte.of_N) in H0. rewrite Byte.of_to_N in H0.
    cbn in H0. injection H0 as ->. reflexivity.
  - reflexivity.
Qed.

Lemma encode_ascii_is_ascii (s : pystr) (b : bytes) :
  encode_ascii s = Returned b -> is_ascii_bytes b = true.
Proof. intros H. exact (proj2 (encode_ascii_from_bytes s 0 b H)). Qed.

(** ** What the methods hand back and hand over *)

Ltac returned_value :=
  cbn; intros v Hv; first [discriminate Hv | injection Hv as <-];
  cbn; repeat constructor; apply decoded_alphabet.

Lemma communication_strings (m : Communication.Method) (s : CommunicationObj)
    (w : World) (v : PyVal) :
  outcome (Communication.invoke native m s w) = Returned v ->
  Forall (fun str => forallb decoded_code_point str = true) (strings_of v).
Proof.
  revert v.
  destruct m;
    unfold Communication.invoke, Communication.fmap,
      Communication.enumerate_usb, Communication.connect_usb,
      Communication.try_connect_usb, Communication.is_connecting,
      Communication.get_controller_id, Communication.is_connected,
      Communication.set_daisy_chain_scan_max_device_id,
      Communication.open_usb_daisy_chain,
      Communication.connect_daisy_chain_device,
      Communication.close_daisy_chain, Communication.close_connection.
  all: repeat (first [monad_step | rewrite bind_Communication_check_error | branch_step];
               cbv beta zeta).
  all: returned_value.
Qed.

Lemma controller_strings (m : ControllerCommand.Method) (s : ControllerCommandObj)
    (w : World) (v : PyVal) :
  outcome (ControllerCommand.invoke native m s w) = Returned v ->
  Forall (fun str => forallb decoded_code_point str = true) (strings_of v).
Proof.
  revert v. destruct m; unfold_controller_methods.
  all: run_method; returned_value.
Qed.

Lemma axis_strings (m : AxisCommand.Method) (s : AxisCommandObj)
    (w : World) (v : PyVal) :
  outcome (AxisCommand.invoke native m s w) = Returned v ->
  Forall (fun str => forallb decoded_code_point str = true) (strings_of v).
Proof.
  destruct m as [m'| | | | | | | | | | | | | | | | | | | |].
  1: { exact (controller_strings m' (base s) w v). }
  all: revert v; unfold_axis_methods.
  all: run_method; returned_value.
Qed.

(** X2.  Every string a method of the three classes returns, alone or
    inside a tuple, holds no NUL and only ASCII code points or the
    replacement character U+FFFD, whatever the native library wrote into
    the buffer. *)
Theorem returned_strings_are_decoded :
  (forall (m : Communication.Method) s (w : World) v,
     outcome (Communication.invoke native m s w) = Returned v ->
     Forall (fun str => forallb decoded_code_point str = true) (strings_of v)) /\
  (forall (m : ControllerCommand.Method) s (w : World) v,
     outcome (ControllerCommand.invoke native m s w) = Returned v ->
     Forall (fun str => forallb decoded_code_point str = true) (strings_of v)) /\
  (forall (m : AxisCommand.Method) s (w : World) v,
     outcome (AxisCommand.invoke native m s w) = Returned v ->
     Forall (fun str => forallb decoded_code_point str = true) (strings_of v)).
Proof.
  split; [|split].
  - exact communication_strings.
  - exact controller_strings.
  - exact axis_strings.
Qed.

Lemma session_calls (P : NativeCall -> Prop) (ms : list AxisCommand.Method)
    (s : AxisCommandObj) (w : World) :
  (forall m w', Forall P (calls (AxisCommand.invoke native m s w'))) ->
  Forall P (snd (session ms s w)).
Proof.
  intros Hone. revert w.
  induction ms as [|m ms IH]; intros w; cbn [session fst snd]; [constructor|].
  destruct (axis_invoke_slots m s w) as [Hself _]. rewrite Hself.
  apply Forall_app. split; [apply Hone | apply IH].
Qed.

Ltac ascii_arguments :=
  cbn; repeat (constructor; cbn);
  first [ assumption | reflexivity
        | eapply encode_ascii_is_ascii; eassumption ].

Lemma communication_ascii_arguments (m : Communication.Method)
    (s : CommunicationObj) (w : World) :
  Forall (fun c => Forall (fun b => is_ascii_bytes b = true) (string_arguments c))
         (calls (Communication.invoke native m s w)).
Proof.
  destruct m;
    unfold Communication.invoke, Communication.fmap,
      Communication.enumerate_usb, Communication.connect_usb,
      Communication.try_connect_usb, Communication.is_connecting,
      Communication.get_controller_id, Communication.is_connected,
      Communication.set_daisy_chain_scan_max_device_id,
      Communication.open_usb_daisy_chain,
      Communication.connect_daisy_chain_device,
      Communication.close_daisy_chain, Communication.close_connection.
  all: repeat (first [monad_step | rewrite bind_Communication_check_error | branch_step];
               cbv beta zeta).
  all: ascii_arguments.
Qed.

Lemma controller_ascii_arguments (m : ControllerCommand.Method)
    (s : ControllerCommandObj) (w : World) :
  Forall (fun c => Forall (fun b => is_ascii_bytes b = true) (string_arguments c))
         (calls (ControllerCommand.invoke native m s w)).
Proof.
  destruct m; unfold_controller_methods.
  all: run_method; ascii_arguments.
Qed.

Lemma axis_ascii_arguments (m : AxisCommand.Method) (s : AxisCommandObj) (w : World) :
  is_ascii_bytes (axis_id s) = true ->
  Forall (fun c => Forall (fun b => is_ascii_bytes b = true) (string_arguments c))
         (calls (AxisCommand.invoke native m s w)).
Proof.
  intros Haxis.
  destruct m as [m'| | | | | | | | | | | | | | | | | | | |].
  1: { exact (controller_ascii_arguments m' (base s) w). }
  all: unfold_axis_methods.
  all: run_method; ascii_arguments.
Qed.

Lemma new_axis_handle (ctrl : Z) (axis : pystr) (h : AxisCommandObj) (w : World) :
  AxisCommand.new ctrl axis w = Returned h ->
  encode_ascii axis = Returned (axis_id h) /\ ctrl_id (base h) = ctrl.
Proof.
  intros Hnew.
  unfold AxisCommand.new, AxisCommand.__cinit__, ControllerCommand.__cinit__ in Hnew.
  destruct (encode_ascii axis) as [b|e] eqn:E; cbn in Hnew; [|discriminate Hnew].
  injection Hnew as <-. split; reflexivity.
Qed.

(** X3.  Nothing but 7-bit text reaches the native library: every [char *]
    argument of every native call a [Communication] method makes is ASCII,
    and so is every [char *] argument (axis identifier, axes, command-group
    prefix, descriptive string) of every native call made through an axis
    handle that its constructor returned, over any sequence of method calls,
    own or inherited. *)
Theorem native_strings_are_ascii :
  (forall (m : Communication.Method) s (w : World),
     Forall (fun c => Forall (fun b => is_ascii_bytes b = true) (string_arguments c))
            (calls (Communication.invoke native m s w))) /\
  (forall ctrl axis h (ms : list AxisCommand.Method) (w : World),
     AxisCommand.new ctrl axis w = Returned h ->
     Forall (fun c => Forall (fun b => is_ascii_bytes b = true) (string_arguments c))
            (snd (session ms h w))).
Proof.
  split; [exact communication_ascii_arguments|].
  intros ctrl axis h ms w Hnew.
  destruct (new_axis_handle ctrl axis h w Hnew) as [Henc _].
  apply session_calls. intros m w'.
  apply axis_ascii_arguments. exact (encode_ascii_is_ascii axis _ Henc).
Qed.

(** ** One handle, one controller *)

Ltac own_controller := cbn; repeat constructor; cbn; intros; congruence.

Lemma controller_ctrl_arguments (m : ControllerCommand.Method)
    (s : ControllerCommandObj) (w : World) :
  Forall (fun c => forall k, ctrl_argument c = Some k -> k = ctrl_id s)
         (calls (ControllerCommand.invoke native m s w)).
Proof.
  destruct m; unfold_controller_methods.
  all: run_method; own_controller.
Qed.

Lemma axis_ctrl_arguments (m : AxisCommand.Method) (s : AxisCommandObj) (w : World) :
  Forall (fun c => forall k, ctrl_argument c = Some k -> k = ctrl_id (base s))
         (calls (AxisCommand.invoke native m s w)).
Proof.
  destruct m as [m'| | | | | | | | | | | | | | | | | | | |].
  1: { exact (controller_ctrl_arguments m' (base s) w). }
  all: unfold_axis_methods.
  all: run_method; own_controller.
Qed.

(** X4.  A handle only ever addresses its own controller: over any sequence
    of method calls on an axis handle, own or inherited, returning or
    raising, every native call that takes a controller identifier, the
    last-error query of the error path included, is given the handle's
    [ctrl_id]. *)
Theorem handle_addresses_its_controller (ms : list AxisCommand.Method)
    (s : AxisCommandObj) (w : World) :
  Forall (fun c => forall k, ctrl_argument c = Some k -> k = ctrl_id (base s))
         (snd (session ms s w)).
Proof. apply session_calls. intros m w'. apply axis_ctrl_arguments. Qed.

(** ** The error queries *)

Ltac error_queries :=
  unfold translate_error_default_nbytes; cbn;
  split; [repeat constructor; cbn; intros; congruence|];
  split; [reflexivity | cbn; lia].

Lemma controller_error_queries (m : ControllerCommand.Method)
    (s : ControllerCommandObj) (w : World) :
  let cs := calls (ControllerCommand.invoke native m s w) in
  Forall (fun c => forall n, translation_buffer c = Some n -> n = 1024) cs /\
  List.length (filter is_last_error_query cs) = List.length (filter is_translation cs) /\
  (List.length (filter is_last_error_query cs) <= 1)%nat.
Proof.
  destruct m; unfold_controller_methods.
  all: run_method; error_queries.
Qed.

Lemma axis_error_queries (m : AxisCommand.Method) (s : AxisCommandObj) (w : World) :
  let cs := calls (AxisCommand.invoke native m s w) in
  Forall (fun c => forall n, translation_buffer c = Some n -> n = 1024) cs /\
  List.length (filter is_last_error_query cs) = List.length (filter is_translation cs) /\
  (List.length (filter is_last_error_query cs) <= 1)%nat.
Proof.
  destruct m as [m'| | | | | | | | | | | | | | | | | | | |].
  1: { exact (controller_error_queries m' (base s) w). }
  all: unfold_axis_methods.
  all: run_method; error_queries.
Qed.

(** X5.  The error queries of a whole session on an axis handle: every
    translation is requested into a 1024-byte buffer, whatever buffer size
    the caller gave the method; there are as many last-error queries as
    translations; and there is at most one of each per method call. *)
Theorem session_error_queries (ms : list AxisCommand.Method)
    (s : AxisCommandObj) (w : World) :
  let cs := snd (session ms s w) in
  Forall (fun c => forall n, translation_buffer c = Some n -> n = 1024) cs /\
  List.length (filter is_last_error_query cs) = List.length (filter is_translation cs) /\
  (List.length (filter is_last_error_query cs) <= List.length ms)%nat.
Proof.
  revert w. induction ms as [|m ms IH]; intros w; cbn [session fst snd].
  - cbn. split; [constructor|]. split; [reflexivity | lia].
  - destruct (axis_invoke_slots m s w) as [Hself _]. rewrite Hself.
    destruct (axis_error_queries m s w) as [Hbuf [Heq Hle]].
    destruct (IH (world_after (AxisCommand.invoke native m s w)))
      as [IHbuf [IHeq IHle]].
    cbv zeta. rewrite !filter_app, !length_app.
    split; [apply Forall_app; split; assumption|].
    cbn [List.length]. split; lia.
Qed.

(** X6.  The communication layer never asks a controller for its last error:
    a [Communication] method makes no [PI_GetError] call; when it
    translates, it translates once, into a 1024-byte buffer whatever buffer
    size the caller gave, and it does so only after printing the code. *)
Theorem communication_error_queries (m : Communication.Method)
    (s : CommunicationObj) (w : World) :
  let res := Communication.invoke native m s w in
  filter is_last_error_query (calls res) = [] /\
  Forall (fun c => forall n, translation_buffer c = Some n -> n = 1024) (calls res) /\
  List.length (filter is_translation (calls res)) = List.length (stdout res) /\
  (List.length (stdout res) <= 1)%nat.
Proof.
  destruct m;
    unfold Communication.invoke, Communication.fmap,
      Communication.enumerate_usb, Communication.connect_usb,
      Communication.try_connect_usb, Communication.is_connecting,
      Communication.get_controller_id, Communication.is_connected,
      Communication.set_daisy_chain_scan_max_device_id,
      Communication.open_usb_daisy_chain,
      Communication.connect_daisy_chain_device,
      Communication.close_daisy_chain, Communication.close_connection.
  all: repeat (first [monad_step | rewrite bind_Communication_check_error | branch_step];
               cbv beta zeta).
  all: unfold translate_error_default_nbytes; cbn; split; [reflexivity|];
    split; [repeat constructor; cbn; intros; congruence|];
    split; [reflexivity | cbn; lia].
Qed.

Lemma controller_prints_nothing (m : ControllerCommand.Method)
    (s : ControllerCommandObj) (w : World) :
  stdout (ControllerCommand.invoke native m s w) = [].
Proof.
  destruct m; unfold_controller_methods.
  all: run_method; reflexivity.
Qed.

(** X7.  The controller and axis layers are silent: no method of
    [ControllerCommand] or [AxisCommand], whether it returns or raises,
    prints anything. *)
Theorem handles_print_nothing (m : AxisCommand.Method) (s : AxisCommandObj)
    (w : World) :
  stdout (AxisCommand.invoke native m s w) = [] /\
  (forall m', stdout (ControllerCommand.invoke native m' (base s) w) = []).
Proof.
  split; [|intros m'; apply controller_prints_nothing].
  destruct m as [m'| | | | | | | | | | | | | | | | | | | |].
  1: { exact (controller_prints_nothing m' (base s) w). }
  all: unfold_axis_methods.
  all: run_method; reflexivity.
Qed.

(** ** Buffer sizes *)

Ltac rejected_extent :=
  order_facts; first [ lia | cbn; split; reflexivity ].

Lemma communication_rejects_extent (m : Communication.Method)
    (s : CommunicationObj) (w : World) (n : Z) :
  In n (communication_extents m) -> n <= 0 ->
  let res := Communication.invoke native m s w in
  calls res = [] /\ outcome res = Raised (invalid_shape n).
Proof.
  intros H Hn. unfold invalid_shape.
  destruct m; cbn in H; try contradiction;
    destruct H as [<-|[]];
    unfold Communication.invoke, Communication.fmap,
      Communication.enumerate_usb, Communication.open_usb_daisy_chain.
  all: repeat (first [monad_step | rewrite bind_Communication_check_error | branch_step];
               cbv beta zeta).
  all: rejected_extent.
Qed.

Lemma controller_rejects_extent (m : ControllerCommand.Method)
    (s : ControllerCommandObj) (w : World) (n : Z) :
  In n (controller_extents m) -> n <= 0 ->
  let res := ControllerCommand.invoke native m s w in
  calls res = [] /\ outcome res = Raised (invalid_shape n).
Proof.
  intros H Hn. unfold invalid_shape.
  destruct m; cbn in H; try contradiction;
    destruct H as [<-|[]];
    unfold_controller_methods.
  all: run_method; rejected_extent.
Qed.

Lemma axis_rejects_extent (m : AxisCommand.Method) (s : AxisCommandObj)
    (w : World) (n : Z) :
  In n (axis_extents m) -> n <= 0 ->
  let res := AxisCommand.invoke native m s w in
  calls res = [] /\ outcome res = Raised (invalid_shape n).
Proof.
  intros H Hn.
  destruct m as [m'| | | | | | | | | | | | | | | | | | | |];
    try (cbn in H; contradiction).
  - exact (controller_rejects_extent m' (base s) w n H Hn).
  - unfold invalid_shape. cbn in H. destruct H as [<-|[]].
    unfold_axis_methods. run_method; rejected_extent.
Qed.

Lemma get_parameter_allocations (parameter : Z) (volatile : bool)
    (nelem nbytes : Z) (s : AxisCommandObj) (w : World) :
  let res := AxisCommand.get_parameter native parameter volatile nelem nbytes s w in
  (nelem <= 0 ->
     calls res = [] /\ outcome res = Raised (invalid_shape nelem)) /\
  (0 < nelem -> sizeof_long_double <> sizeof_double ->
     calls res = [] /\ outcome res = Raised dtype_mismatch) /\
  (0 < nelem -> sizeof_long_double = sizeof_double -> nbytes <= 0 ->
     calls res = [] /\ outcome res = Raised (invalid_shape nbytes)).
Proof.
  cbv zeta. unfold AxisCommand.get_parameter, double_view_of_long_double, invalid_shape.
  rewrite bind_get_self. cbv beta. rewrite bind_view_array.
  split; [|split].
  - intros Hnelem. apply Z.leb_le in Hnelem. rewrite Hnelem. split; reflexivity.
  - intros Hnelem Hsize. apply Z.leb_gt in Hnelem. apply Z.eqb_neq in Hsize.
    rewrite Hnelem, Hsize. split; reflexivity.
  - intros Hnelem Hsize Hnbytes.
    apply Z.leb_gt in Hnelem. apply Z.eqb_eq in Hsize. apply Z.leb_le in Hnbytes.
    rewrite Hnelem, Hsize, bind_mret, bind_view_array, Hnbytes. split; reflexivity.
Qed.

(** X8.  A buffer that cannot be set up is refused before the native
    library is involved.  A method of any of the three classes that
    allocates one buffer, of [nbytes] bytes, makes no native call and
    raises the [ValueError] of that size when it is zero or negative, even
    when a string argument could not have been encoded either.
    [get_parameter] sets up two buffers, in the order of the source: it
    raises the [ValueError] of [nelem] when [nelem] is not positive,
    whatever [nbytes] is; otherwise the [ValueError] of the item type where
    long double has not the size of double, whatever [nbytes] is; otherwise
    the [ValueError] of [nbytes] when [nbytes] is not positive; and makes no
    native call in any of the three cases.  The [nbytes] of
    [set_parameter], for which no buffer is allocated, is never read: runs
    that differ only in it are equal. *)
Theorem buffer_sizes_are_checked_first :
  (forall (m : Communication.Method) s (w : World) n,
     In n (communication_extents m) -> n <= 0 ->
     let res := Communication.invoke native m s w in
     calls res = [] /\ outcome res = Raised (invalid_shape n)) /\
  (forall (m : AxisCommand.Method) s (w : World) n,
     In n (axis_extents m) -> n <= 0 ->
     let res := AxisCommand.invoke native m s w in
     calls res = [] /\ outcome res = Raised (invalid_shape n)) /\
  (forall parameter volatile nelem nbytes s (w : World),
     let res := AxisCommand.get_parameter native parameter volatile nelem nbytes
                  s w in
     (nelem <= 0 ->
        calls res = [] /\ outcome res = Raised (invalid_shape nelem)) /\
     (0 < nelem -> sizeof_long_double <> sizeof_double ->
        calls res = [] /\ outcome res = Raised dtype_mismatch) /\
     (0 < nelem -> sizeof_long_double = sizeof_double -> nbytes <= 0 ->
        calls res = [] /\ outcome res = Raised (invalid_shape nbytes))) /\
  (forall parameter values string volatile n1 n2 s (w : World),
     AxisCommand.set_parameter native parameter values string volatile n1 s w
     = AxisCommand.set_parameter native parameter values string volatile n2 s w).
Proof.
  split; [exact communication_rejects_extent|].
  split; [exact axis_rejects_extent|].
  split; [exact get_parameter_allocations|].
  reflexivity.
Qed.

(** ** Connecting *)

(** X9.  [connect_usb] chooses the entry point by the sign of [baudrate]: a
    negative one, as the default -1, calls [PI_ConnectUSB] with the encoded
    description; zero or a positive one calls [PI_ConnectUSBWithBaudRate]
    with the description and that rate.  It is the first native call; when
    it returns a value that is not negative it is the only one and that
    value is returned as the controller identifier. *)
Theorem connect_usb_dispatch (desc : pystr) (b_desc : bytes) (baudrate : Z)
    (s : CommunicationObj) (w : World) :
  encode_ascii desc = Returned b_desc ->
  let c := if baudrate <? 0 then PI_ConnectUSB b_desc
           else PI_ConnectUSBWithBaudRate b_desc baudrate in
  let r := fst (native c w) in
  let res := Communication.connect_usb native desc baudrate s w in
  calls res = c :: (if ret r <? 0
                    then [PI_TranslateError (ret r) translate_error_default_nbytes]
                    else []) /\
  (0 <= ret r -> outcome res = Returned (ret r)) /\
  (Communication.connect_usb_default_baudrate <? 0) = true.
Proof.
  intros Hdesc c r res. subst c r res. unfold Communication.connect_usb.
  rewrite bind_lift, Hdesc. cbv beta iota.
  destruct (baudrate <? 0); cbv iota; rewrite bind_native_call; cbv beta;
    rewrite bind_Communication_check_error;
    match goal with |- context [?z <? 0] => destruct (z <? 0) eqn:E end;
    cbn; (split; [reflexivity|]); (split; [|reflexivity]);
    intros Hz; order_facts; first [lia | reflexivity].
Qed.

Ltac returned_identifier :=
  cbn; intros v z Hv Hz;
  first [ discriminate Hv
        | injection Hv as <-; cbn in Hz;
          first [ discriminate Hz
                | injection Hz as <-; order_facts;
                  split; [assumption|]; eexists; split; reflexivity ] ].

(** X10.  An identifier handed back by the communication layer is never
    negative: whenever [connect_usb], [try_connect_usb], [get_controller_id],
    [connect_daisy_chain_device] or [open_usb_daisy_chain] (in the first
    component of its triple) returns, the identifier is the return value of
    the method's single native call, and it is zero or positive. *)
Theorem returned_identifiers_are_not_negative (m : Communication.Method)
    (s : CommunicationObj) (w : World) (v : PyVal) (z : Z) :
  outcome (Communication.invoke native m s w) = Returned v ->
  identifier_of v = Some z ->
  0 <= z /\
  exists c, calls (Communication.invoke native m s w) = [c] /\
            z = ret (fst (native c w)).
Proof.
  revert v z.
  destruct m;
    unfold Communication.invoke, Communication.fmap,
      Communication.enumerate_usb, Communication.connect_usb,
      Communication.try_connect_usb, Communication.is_connecting,
      Communication.get_controller_id, Communication.is_connected,
      Communication.set_daisy_chain_scan_max_device_id,
      Communication.open_usb_daisy_chain,
      Communication.connect_daisy_chain_device,
      Communication.close_daisy_chain, Communication.close_connection.
  all: repeat (first [monad_step | rewrite bind_Communication_check_error | branch_step];
               cbv beta zeta).
  all: returned_identifier.
Qed.

(** ** Constructing a handle *)

Lemma encode_ascii_from_rejects (s : pystr) (pos : nat) :
  is_ascii_str s = false ->
  exists i c,
    encode_ascii_from pos s = Raised (UnicodeEncodeError (pos + i) c) /\
    nth_error s i = Some c /\ (128 <= c)%N /\
    is_ascii_str (firstn i s) = true.
Proof.
  unfold is_ascii_str.
  revert pos. induction s as [|c s IH]; intros pos H; [discriminate H|].
  cbn [forallb] in H. cbn [encode_ascii_from].
  destruct (c <? 128)%N eqn:Hc.
  - cbn in H. destruct (byte_of_ascii_code_point c Hc) as [x ->].
    destruct (IH (S pos) H) as [i [c' [Henc [Hnth [Hc' Hfirst]]]]].
    exists (S i), c'. rewrite Henc, Nat.add_succ_r.
    split; [reflexivity|]. split; [exact Hnth|]. split; [exact Hc'|].
    cbn [firstn forallb]. rewrite Hc. exact Hfirst.
  - exists 0%nat, c. rewrite Nat.add_0_r. apply N.ltb_ge in Hc.
    split; [reflexivity|]. split; [reflexivity|]. split; [exact Hc | reflexivity].
Qed.

(** X11.  Constructing handles.  [ControllerCommand(ctrl_id)] always
    succeeds.  [AxisCommand(ctrl_id, axis_id)] succeeds exactly when every
    code point of [axis_id] is below 128, the empty string included, and
    the handle then stores one byte per code point; otherwise it raises
    [UnicodeEncodeError] naming the position and the code point of the first
    one that is not.  Neither constructor talks to the native library, so a
    handle can be built for an axis the controller does not have. *)
Theorem handle_construction (ctrl : Z) (axis : pystr) (w : World) :
  ControllerCommand.new ctrl w = Returned {| ctrl_id := ctrl |} /\
  (is_ascii_str axis = true ->
     exists b, AxisCommand.new ctrl axis w
               = Returned {| base := {| ctrl_id := ctrl |}; axis_id := b |} /\
               map Byte.to_N b = axis) /\
  (is_ascii_str axis = false ->
     exists i c, AxisCommand.new ctrl axis w = Raised (UnicodeEncodeError i c) /\
                 nth_error axis i = Some c /\ (128 <= c)%N /\
                 is_ascii_str (firstn i axis) = true) /\
  calls ((AxisCommand.inherited (ControllerCommand.__cinit__ ctrl) ;;
          AxisCommand.__cinit__ ctrl axis) AxisCommand.allocated w) = [].
Proof.
  split; [reflexivity|].
  unfold AxisCommand.new, AxisCommand.__cinit__, ControllerCommand.__cinit__.
  split; [|split].
  - intros Hascii.
    destruct (encode_ascii_from_accepts axis 0 Hascii) as [b Hb].
    exists b. unfold encode_ascii. rewrite Hb. cbn.
    split; [reflexivity|]. exact (proj1 (encode_ascii_from_bytes axis 0 b Hb)).
  - intros Hascii.
    destruct (encode_ascii_from_rejects axis 0 Hascii) as [i [c [Henc H]]].
    exists i, c. unfold encode_ascii. rewrite Henc. cbn.
    split; [reflexivity | exact H].
  - destruct (encode_ascii axis); reflexivity.
Qed.

(** ** Status queries, documented commands, reference modes *)

Ltac returned_status :=
  cbn; intros v Hv;
  first [ discriminate Hv
        | injection Hv as <-; eexists; eexists;
          split; [reflexivity|]; split; [reflexivity|]; apply Z.ltb_lt ].

Lemma controller_status (m : ControllerCommand.Method) (s : ControllerCommandObj)
    (w : World) (v : PyVal) :
  controller_status_query m = true ->
  outcome (ControllerCommand.invoke native m s w) = Returned v ->
  exists c b, calls (ControllerCommand.invoke native m s w) = [c] /\
              v = PyBool b /\ (b = true <-> 0 < out_int (fst (native c w))).
Proof.
  intros Hq. revert v.
  destruct m; try discriminate Hq; clear Hq; unfold_controller_methods.
  all: run_method; returned_status.
Qed.

(** X12.  A status query ([is_connecting], [is_moving],
    [is_controller_ready], [is_running_macro], [is_referenced]) that
    returns has made exactly one native call, and its result is the boolean
    that is true exactly when the status the library wrote through the
    out-parameter is strictly positive: zero and negative statuses read as
    false. *)
Theorem status_queries_read_the_out_parameter :
  (forall (m : Communication.Method) s (w : World) v,
     communication_status_query m = true ->
     outcome (Communication.invoke native m s w) = Returned v ->
     exists c b, calls (Communication.invoke native m s w) = [c] /\
                 v = PyBool b /\ (b = true <-> 0 < out_int (fst (native c w)))) /\
  (forall (m : AxisCommand.Method) s (w : World) v,
     axis_status_query m = true ->
     outcome (AxisCommand.invoke native m s w) = Returned v ->
     exists c b, calls (AxisCommand.invoke native m s w) = [c] /\
                 v = PyBool b /\ (b = true <-> 0 < out_int (fst (native c w)))).
Proof.
  split.
  - intros m s w v Hq. revert v.
    destruct m; try discriminate Hq; clear Hq.
    unfold Communication.invoke, Communication.fmap, Communication.is_connecting.
    repeat (first [monad_step | rewrite bind_Communication_check_error | branch_step];
            cbv beta zeta).
    all: returned_status.
  - intros m s w v Hq.
    destruct m as [m'| | | | | | | | | | | | | | | | | | | |];
      try discriminate Hq.
    + exact (controller_status m' (base s) w v Hq).
    + clear Hq. revert v. unfold_axis_methods. run_method; returned_status.
Qed.

Ltac documented_command :=
  cbn; intros c rest Hc Hq; inversion Hc; subst; clear Hc;
  first [ discriminate Hq | cbn; tauto ].

Lemma controller_documented (m : ControllerCommand.Method)
    (s : ControllerCommandObj) (w : World) (c : NativeCall) (rest : list NativeCall) :
  controller_documented_commands m <> [] ->
  calls (ControllerCommand.invoke native m s w) = c :: rest ->
  is_error_query c = false ->
  In (mnemonic c) (controller_documented_commands m).
Proof.
  intros Hdoc. revert c rest.
  destruct m; try (exfalso; apply Hdoc; reflexivity); clear Hdoc;
    unfold_controller_methods.
  all: run_method; documented_command.
Qed.

(** X13.  The code agrees with its docstrings: whenever a method of
    [ControllerCommand] or [AxisCommand] whose docstring names GCS commands
    issues a command, the entry point called is [PI_] followed by one of
    the names in that docstring ([qRON] for [get_reference_mode], [MVR] for
    [set_relative_target_position], one of [qSEP], [qSPA] for
    [get_parameter], and so on). *)
Theorem commands_are_the_documented_ones (m : AxisCommand.Method)
    (s : AxisCommandObj) (w : World) (c : NativeCall) (rest : list NativeCall) :
  documented_commands m <> [] ->
  calls (AxisCommand.invoke native m s w) = c :: rest ->
  is_error_query c = false ->
  In (mnemonic c) (documented_commands m).
Proof.
  intros Hdoc.
  destruct m as [m'| | | | | | | | | | | | | | | | | | | |].
  1: { exact (controller_documented m' (base s) w c rest Hdoc). }
  all: revert c rest; try (exfalso; apply Hdoc; reflexivity); clear Hdoc;
    unfold_axis_methods.
  all: run_method; documented_command.
Qed.

(** X14.  Reference modes convert both ways: [ReferenceMode] of a member's
    value is that member, and a value converts only to the member that has
    it.  So when [get_reference_mode] returns, its native call returned a
    strictly positive value and the member returned is the one whose value
    is the mode the library wrote: [Absolute] for 1, [Relative] for 0. *)
Theorem reference_mode_conversion :
  (forall m, ReferenceMode_of_value (ReferenceMode_value m) = Returned m) /\
  (forall v m, ReferenceMode_of_value v = Returned m -> ReferenceMode_value m = v) /\
  (forall (s : AxisCommandObj) (w : World) m,
     outcome (AxisCommand.get_reference_mode native s w) = Returned m ->
     let r := fst (native (PI_qRON (ctrl_id (base s)) (axis_id s)) w) in
     0 < ret r /\ ReferenceMode_value m = out_int r).
Proof.
  assert (Hinv : forall v m, ReferenceMode_of_value v = Returned m ->
                             ReferenceMode_value m = v).
  { intros v m. unfold ReferenceMode_of_value.
    destruct (v =? 1) eqn:E1; [apply Z.eqb_eq in E1; intros H; injection H as <-;
                               symmetry; exact E1|].
    destruct (v =? 0) eqn:E0; [apply Z.eqb_eq in E0; intros H; injection H as <-;
                               symmetry; exact E0|].
    discriminate. }
  split; [intros []; reflexivity|]. split; [exact Hinv|].
  intros s w m. unfold AxisCommand.get_reference_mode.
  rewrite bind_get_self. cbv beta. rewrite bind_native_call. cbv beta.
  rewrite bind_AxisCommand_check_error.
  destruct (0 <? ret (fst (native (PI_qRON (ctrl_id (base s)) (axis_id s)) w))) eqn:E;
    cbn; [|discriminate].
  intros H. apply Z.ltb_lt in E. split; [exact E|].
  apply Hinv.
  destruct (ReferenceMode_of_value
              (out_int (fst (native (PI_qRON (ctrl_id (base s)) (axis_id s)) w))));
    cbn in H; [injection H as <-; reflexivity | discriminate H].
Qed.

(** X15.  [get_axes_id] chooses the entry point by its flag: with
    [include_deactivated], the default, it calls [PI_qSAI_ALL], without it
    [PI_qSAI], in both cases on the handle's controller with the buffer
    size given; it is the first native call, and when it returns a positive
    value it is the only one and the decoded buffer is returned. *)
Theorem get_axes_id_dispatch (include_deactivated : bool) (nbytes : Z)
    (s : ControllerCommandObj) (w : World) :
  0 < nbytes ->
  let c := if include_deactivated then PI_qSAI_ALL (ctrl_id s) nbytes
           else PI_qSAI (ctrl_id s) nbytes in
  let r := fst (native c w) in
  let res := ControllerCommand.get_axes_id native include_deactivated nbytes s w in
  (exists rest, calls res = c :: rest) /\
  (0 < ret r ->
     calls res = [c] /\
     outcome res = Returned (decode_ascii_replace (out_buffer r))) /\
  ControllerCommand.get_axes_id_default_include_deactivated = true.
Proof.
  intros Hpos c r res. subst c r res. unfold ControllerCommand.get_axes_id.
  assert (E : (nbytes <=? 0) = false) by (apply Z.leb_gt; exact Hpos).
  rewrite bind_view_array, E. cbv beta iota.
  rewrite bind_get_self. cbv beta.
  destruct include_deactivated; cbv iota; rewrite bind_native_call; cbv beta;
    rewrite bind_ControllerCommand_check_error;
    match goal with |- context [0 <? ?z] => destruct (0 <? z) eqn:Hz end;
    cbn; (split; [eexists; reflexivity|]); (split; [|reflexivity]);
    intros Hret; order_facts; first [lia | split; reflexivity].
Qed.

Ltac setter_argument :=
  cbn; intros x Hx;
  first [ discriminate Hx
        | injection Hx as <-; eexists; eexists; split; reflexivity ].

Ltac getter_call :=
  cbn; intros Hg;
  first [ discriminate Hg
        | eexists; eexists; split; [reflexivity|]; split; [reflexivity|];
          intros Hret; first [reflexivity | exfalso; order_facts; lia] ].

Ltac getter_value :=
  cbn; intros d Hd;
  first [ discriminate Hd
        | injection Hd as <-; eexists; split; reflexivity ].

(** X16.  Values pass through unchanged.  A position, velocity or
    acceleration setter, for every double, issues a first native call and
    hands it that double; [set_reference_mode] and [set_servo_state], for
    every integer, issue a first native call and hand it that integer, with
    no check that it is a value of the enumeration; a position, velocity,
    acceleration or travel-range getter issues a first native call, a
    command, and when the command returns a positive value the getter
    returns the double the command wrote; and a float returned by any method
    is the double the method's single native call wrote. *)
Theorem values_pass_through (m : AxisCommand.Method) (s : AxisCommandObj)
    (w : World) :
  let res := AxisCommand.invoke native m s w in
  (forall x, setter_double m = Some x ->
     exists c rest, calls res = c :: rest /\ double_argument c = Some x) /\
  (forall z, setter_int m = Some z ->
     exists c rest, calls res = c :: rest /\ int_argument c = Some z) /\
  (getter_double m = true ->
     exists c rest, calls res = c :: rest /\ is_error_query c = false /\
       (0 < ret (fst (native c w)) ->
          outcome res = Returned (PyFloat (out_double (fst (native c w)))))) /\
  (forall d, outcome res = Returned (PyFloat d) ->
     exists c, calls res = [c] /\ d = out_double (fst (native c w))).
Proof.
  destruct m as [m'| | | | | | | | | | | | | | | | | | | |].
  1: { cbv zeta. split; [intros x Hx; discriminate Hx|].
       split; [intros z Hz; discriminate Hz|].
       split; [intros Hg; discriminate Hg|].
       change (outcome (AxisCommand.invoke native (AxisCommand.Inherited m') s w))
         with (outcome (ControllerCommand.invoke native m' (base s) w)).
       destruct m'; unfold_controller_methods.
       all: run_method; getter_value. }
  all: unfold_axis_methods.
  all: run_method; cbv zeta; (split; [setter_argument|]);
    (split; [setter_argument|]); (split; [getter_call | getter_value]).
Qed.

End Properties.

(** The concrete runs below are on x86-64 Linux, unless they name another
    platform. *)
#[local] Existing Instance linux_x86_64.

(** * Concrete runs against the scripted library *)

Example encode_ascii_rejects_first_other_code_point :
  encode_ascii [79; 233; 75]%N = Raised (UnicodeEncodeError 1 233).
Proof. reflexivity. Qed.

Example decode_stops_at_nul_and_replaces :
  decode_ascii_replace [x4f; xe9; x4b; x00; x41] = [79; 65533; 75]%N.
Proof. reflexivity. Qed.

Example as_c_int_range :
  as_c_int (ObjInt 2147483647) = Returned 2147483647 /\
  as_c_int (ObjInt (-2147483648)) = Returned (-2147483648) /\
  as_c_int (ObjInt (-2147483649)) = Raised OverflowError /\
  as_c_int ObjNone = Raised TypeError.
Proof. repeat split. Qed.

Example format_int_negative : format_int (-12) = lit "-12".
Proof. reflexivity. Qed.

Example reference_mode_of_values :
  ReferenceMode_of_value 1 = Returned Absolute /\
  ReferenceMode_of_value 0 = Returned Relative /\
  returns_normally (ReferenceMode_of_value (-1)) = false.
Proof. repeat split. Qed.

(** C1, instance: [go_to_home] on axis "1" when the command returns 0. *)
Lemma command_error_protocol_witness :
  AxisCommand.checked AxisCommand.Go_to_home = true /\
  two_step_protocol (mock_native mock_command_fails) 1 0%nat
    (rejected_value AxisCommand.Go_to_home)
    (AxisCommand.invoke (mock_native mock_command_fails) AxisCommand.Go_to_home
       axis_one 0%nat).
Proof.
  split; [reflexivity|].
  apply (command_error_protocol (mock_native mock_command_fails)
           AxisCommand.Go_to_home axis_one 0%nat).
  reflexivity.
Defined.

(** C1 as stated fails.  [get_reference_mode] raises [ValueError] although
    its native call returned 1, when the mode handed back is 2; and
    [go_to_home], whose native call returned 0, raises the sizing
    [AssertionError], not the translation of the last error, when the
    translation call does not report success. *)
Lemma command_error_protocol_counterexample :
  (0 < ret (fst (mock_native mock_mode_two (PI_qRON 1 [x31]) 0%nat)) /\
   outcome (AxisCommand.invoke (mock_native mock_mode_two)
              AxisCommand.Get_reference_mode axis_one 0%nat)
   = Raised (ValueError (lit "2 is not a valid ReferenceMode"))) /\
  (ret (fst (mock_native mock_translation_fails (PI_GOH 1 [x31]) 0%nat)) <= 0 /\
   calls (AxisCommand.invoke (mock_native mock_translation_fails)
            AxisCommand.Go_to_home axis_one 0%nat)
   = [PI_GOH 1 [x31]; PI_GetError 1; PI_TranslateError 7 1024] /\
   outcome (AxisCommand.invoke (mock_native mock_translation_fails)
              AxisCommand.Go_to_home axis_one 0%nat)
   = Raised (AssertionError (lit "message buffer (1024 bytes) is too small"))).
Proof.
  split; [split; [reflexivity | reflexivity]|].
  split; [discriminate|]. split; reflexivity.
Defined.

(** C2, instance: [get_controller_id] when the native call returns -1. *)
Lemma communication_return_code_check_witness :
  Communication.checked (Communication.Get_controller_id 5) = true /\
  let res := Communication.invoke (mock_native mock_com_error)
               (Communication.Get_controller_id 5) CommunicationSelf 0%nat in
  calls res = [PI_GetControllerID 5; PI_TranslateError (-1) 1024] /\
  stdout res = [lit "err_id: -1"] /\
  outcome res = Raised (RuntimeError (lit "COM error")).
Proof.
  split; [reflexivity|].
  pose proof (communication_return_code_check (mock_native mock_com_error)
                (Communication.Get_controller_id 5) CommunicationSelf 0%nat
                eq_refl) as [H _].
  specialize (H (PI_GetControllerID 5) [PI_TranslateError (-1) 1024] eq_refl).
  destruct H as [_ [Hneg _]].
  destruct (Hneg eq_refl) as [_ [Hout Hraised]].
  split; [reflexivity|]. split; [exact Hout | exact Hraised].
Defined.

(** C2 as stated fails.  [get_controller_id], whose native call returned
    -1, raises the sizing [AssertionError], which does not carry the
    translated message of -1, when the translation call does not report
    success. *)
Lemma communication_return_code_check_counterexample :
  ret (fst (mock_native mock_com_error_untranslated (PI_GetControllerID 5) 0%nat)) < 0 /\
  outcome (Communication.invoke (mock_native mock_com_error_untranslated)
             (Communication.Get_controller_id 5) CommunicationSelf 0%nat)
  = Raised (AssertionError (lit "message buffer (1024 bytes) is too small")).
Proof. split; reflexivity. Defined.

(** C3, instance: [start_reference_movement(None)]. *)
Lemma unrecognized_strategy_raises_witness :
  strategy_eq (NotAMember PyNone) ReferenceSwitch = false /\
  strategy_eq (NotAMember PyNone) NegativeLimit = false /\
  strategy_eq (NotAMember PyNone) PositiveLimit = false /\
  let res := AxisCommand.start_reference_movement (mock_native mock_ok)
               (NotAMember PyNone) axis_one 0%nat in
  filter is_reference_movement (calls res) = [] /\
  calls res = [PI_GetError 1; PI_TranslateError 0 1024] /\
  outcome res = Raised (RuntimeError (lit "No error")) /\
  returns_normally (outcome res) = false.
Proof.
  split; [reflexivity|]. split; [reflexivity|]. split; [reflexivity|].
  exact (unrecognized_strategy_raises (mock_native mock_ok) (NotAMember PyNone)
           axis_one 0%nat eq_refl eq_refl eq_refl).
Defined.

(** C3 as stated fails.  With a strategy that is no member of
    [ReferenceStrategy] (here [None], and the integer 1),
    [start_reference_movement] does not return: it raises [RuntimeError]
    with the translation of the controller's last error, here code 0. *)
Lemma unrecognized_strategy_raises_counterexample :
  strategy_eq (NotAMember PyNone) ReferenceSwitch = false /\
  strategy_eq (NotAMember PyNone) NegativeLimit = false /\
  strategy_eq (NotAMember PyNone) PositiveLimit = false /\
  returns_normally
    (outcome (AxisCommand.start_reference_movement (mock_native mock_ok)
                (NotAMember PyNone) axis_one 0%nat)) = false /\
  outcome (AxisCommand.start_reference_movement (mock_native mock_ok)
             (NotAMember PyNone) axis_one 0%nat)
  = Raised (RuntimeError (lit "No error")) /\
  outcome (AxisCommand.start_reference_movement (mock_native mock_ok)
             (NotAMember (PyInt 1)) axis_one 0%nat)
  = Raised (RuntimeError (lit "No error")).
Proof. repeat split. Defined.

(** C4, instance: code 7 into the default buffer. *)
Lemma translate_error_sizing_witness :
  0 < 1024 /\
  let res := translate_error (mock_native mock_ok) 7 1024 tt 0%nat in
  calls res = [PI_TranslateError 7 1024] /\
  outcome res = Returned (lit "Pos out of limits").
Proof.
  split; [reflexivity|].
  destruct (translate_error_sizing (mock_native mock_ok) unit 7 1024 tt 0%nat)
    as [Hpositive _].
  destruct (Hpositive eq_refl) as [Hcalls [_ Hout]].
  split; [exact Hcalls | exact Hout].
Defined.

(** C4 as stated fails.  With a buffer size of 0 the native call is not made
    and would have returned a positive value, yet [translate_error] does not
    return the decoded buffer: the allocation raises [ValueError]; the same
    happens, instead of the sizing error, when the native call would have
    returned 0. *)
Lemma translate_error_sizing_counterexample :
  (0 < ret (fst (mock_native mock_ok (PI_TranslateError 7 0) 0%nat)) /\
   calls (translate_error (mock_native mock_ok) 7 0 tt 0%nat) = [] /\
   outcome (translate_error (mock_native mock_ok) 7 0 tt 0%nat)
   = Raised (ValueError (lit "Invalid shape in axis 0: 0."))) /\
  (ret (fst (mock_native mock_translation_fails (PI_TranslateError 7 0) 0%nat)) <= 0 /\
   outcome (translate_error (mock_native mock_translation_fails) 7 0 tt 0%nat)
   = Raised (ValueError (lit "Invalid shape in axis 0: 0."))).
Proof.
  split; [split; [reflexivity | split; reflexivity]|].
  split; [discriminate | reflexivity].
Defined.



(** C6, instance: closing the daisy chain of port 3. *)
Lemma connection_queries_and_close_witness :
  as_c_int (ObjInt 3) = Returned 3 /\
  outcome (Communication.close_daisy_chain (mock_native mock_ok) (ObjInt 3)
             CommunicationSelf 0%nat) = Returned tt /\
  calls (Communication.close_daisy_chain (mock_native mock_ok) (ObjInt 3)
           CommunicationSelf 0%nat) = [PI_CloseDaisyChain 3].
Proof.
  split; [reflexivity|].
  exact (proj2 (proj1 (proj2
           (connection_queries_and_close (mock_native mock_ok) 1 (ObjInt 3)
              CommunicationSelf 0%nat)))).
Defined.

(** C6 as stated fails.  [close_daisy_chain] raises for an argument that
    does not convert to a C [int], and does not make the native close call:
    [TypeError] for the string "x" and for [None], [OverflowError] for the
    integer 2**31. *)
Lemma connection_queries_and_close_counterexample :
  (outcome (Communication.close_daisy_chain (mock_native mock_ok) (ObjStr [120%N])
              CommunicationSelf 0%nat) = Raised TypeError /\
   calls (Communication.close_daisy_chain (mock_native mock_ok) (ObjStr [120%N])
            CommunicationSelf 0%nat) = []) /\
  (outcome (Communication.close_daisy_chain (mock_native mock_ok) ObjNone
              CommunicationSelf 0%nat) = Raised TypeError /\
   calls (Communication.close_daisy_chain (mock_native mock_ok) ObjNone
            CommunicationSelf 0%nat) = []) /\
  (outcome (Communication.close_daisy_chain (mock_native mock_ok)
              (ObjInt 2147483648) CommunicationSelf 0%nat) = Raised OverflowError /\
   calls (Communication.close_daisy_chain (mock_native mock_ok)
            (ObjInt 2147483648) CommunicationSelf 0%nat) = []).
Proof. repeat split. Defined.

(** C7 as stated fails.  When [PI_FRF] returns 0,
    [start_reference_movement(ReferenceSwitch)] invokes three native calls,
    not one. *)
Lemma reference_strategy_dispatch_counterexample :
  calls (AxisCommand.start_reference_movement (mock_native mock_command_fails)
           (Member ReferenceSwitch) axis_one 0%nat)
  = [PI_FRF 1 [x31]; PI_GetError 1; PI_TranslateError 7 1024] /\
  List.length (calls (AxisCommand.start_reference_movement (mock_native mock_command_fails)
                   (Member ReferenceSwitch) axis_one 0%nat)) <> 1%nat.
Proof. split; [reflexivity | discriminate]. Defined.

(** C8 as stated fails.  Both stubs return normally, here on the axes "1". *)
Lemma axes_enable_status_stubs_counterexample :
  outcome (ControllerCommand.invoke (mock_native mock_ok)
             (ControllerCommand.Get_axes_enable_status [49%N]) (base axis_one) 0%nat)
  = Returned PyNone /\
  outcome (ControllerCommand.invoke (mock_native mock_ok)
             (ControllerCommand.Set_axes_enable_status [49%N] true) (base axis_one)
             0%nat)
  = Returned PyNone.
Proof. split; reflexivity. Defined.



(** X1, instance: the axis name "1". *)
Lemma ascii_round_trip_witness :
  encode_ascii [49%N] = Returned [x31] /\
  Forall (fun c => c <> 0%N) [49%N] /\
  decode_ascii_replace ([x31] ++ x00 :: [xff; x41]) = [49%N].
Proof.
  split; [reflexivity|].
  assert (H : Forall (fun c => c <> 0%N) [49%N])
    by (constructor; [discriminate | constructor]).
  split; [exact H|].
  exact (proj2 (proj2 (ascii_round_trip [49%N] [x31] [xff; x41] eq_refl H))).
Defined.

(** X3, instance: a halt under a foreign axis name, a persisted parameter
    write and an inherited motion query, on the handle of axis "1". *)
Lemma native_strings_are_ascii_witness :
  AxisCommand.new 1 [49%N] 0%nat = Returned axis_one /\
  Forall (fun c => Forall (fun b => is_ascii_bytes b = true) (string_arguments c))
         (snd (session (mock_native mock_ok)
                 [AxisCommand.Halt [233%N];
                  AxisCommand.Set_parameter 50 [0] [120%N] false 64;
                  AxisCommand.Inherited (ControllerCommand.Is_moving [50%N])]
                 axis_one 0%nat)).
Proof.
  split; [reflexivity|].
  exact (proj2 (native_strings_are_ascii (mock_native mock_ok))
           1 [49%N] axis_one _ 0%nat eq_refl).
Defined.

(** X8, instance: [get_stage_type] with a buffer of no byte; and
    [get_parameter] asked for one value and a string of no byte, on x86-64
    Linux and where long double is double. *)
Lemma buffer_sizes_are_checked_first_witness :
  In 0 (axis_extents (AxisCommand.Get_stage_type 0)) /\
  (calls (AxisCommand.invoke (mock_native mock_ok) (AxisCommand.Get_stage_type 0)
            axis_one 0%nat) = [] /\
   outcome (AxisCommand.invoke (mock_native mock_ok) (AxisCommand.Get_stage_type 0)
              axis_one 0%nat) = Raised (invalid_shape 0)) /\
  (calls (AxisCommand.get_parameter (mock_native mock_ok) 50 true 1 0
            axis_one 0%nat) = [] /\
   outcome (AxisCommand.get_parameter (mock_native mock_ok) 50 true 1 0
              axis_one 0%nat) = Raised dtype_mismatch) /\
  (calls (AxisCommand.get_parameter (platform := msvc_x64) (mock_native mock_ok)
            50 true 1 0 axis_one 0%nat) = [] /\
   outcome (AxisCommand.get_parameter (platform := msvc_x64) (mock_native mock_ok)
              50 true 1 0 axis_one 0%nat) = Raised (invalid_shape 0)).
Proof.
  assert (H : In 0 (axis_extents (AxisCommand.Get_stage_type 0)))
    by (left; reflexivity).
  split; [exact H|].
  split.
  - exact (proj1 (proj2 (buffer_sizes_are_checked_first (mock_native mock_ok)))
             (AxisCommand.Get_stage_type 0) axis_one 0%nat 0 H
             (Z.le_refl 0)).
  - split.
    + refine (proj1 (proj2 (proj1 (proj2 (proj2
               (buffer_sizes_are_checked_first (mock_native mock_ok))))
               50 true 1 0 axis_one 0%nat)) _ _); [reflexivity | discriminate].
    + refine (proj2 (proj2 (proj1 (proj2 (proj2
               (buffer_sizes_are_checked_first (platform := msvc_x64)
                  (mock_native mock_ok))))
               50 true 1 0 axis_one 0%nat)) _ _ _);
        [reflexivity | reflexivity | discriminate].
Defined.

(** X9, instance: the description "A" with the default rate. *)
Lemma connect_usb_dispatch_witness :
  encode_ascii [65%N] = Returned [x41] /\
  calls (Communication.connect_usb (mock_native mock_ok) [65%N]
           Communication.connect_usb_default_baudrate CommunicationSelf 0%nat)
  = [PI_ConnectUSB [x41]].
Proof.
  split; [reflexivity|].
  exact (proj1 (connect_usb_dispatch (mock_native mock_ok) [65%N] [x41]
                  Communication.connect_usb_default_baudrate CommunicationSelf
                  0%nat eq_refl)).
Defined.

(** X10, instance: the controller identifier of thread 5. *)
Lemma returned_identifiers_are_not_negative_witness :
  outcome (Communication.invoke (mock_native mock_ok)
             (Communication.Get_controller_id 5) CommunicationSelf 0%nat)
  = Returned (PyInt 1) /\
  identifier_of (PyInt 1) = Some 1 /\
  0 <= 1.
Proof.
  split; [reflexivity|]. split; [reflexivity|].
  exact (proj1 (returned_identifiers_are_not_negative (mock_native mock_ok)
                  (Communication.Get_controller_id 5) CommunicationSelf 0%nat
                  (PyInt 1) 1 eq_refl eq_refl)).
Defined.

(** X12, instance: [is_referenced] on axis "1". *)
Lemma status_queries_read_the_out_parameter_witness :
  axis_status_query AxisCommand.Is_referenced = true /\
  outcome (AxisCommand.invoke (mock_native mock_ok) AxisCommand.Is_referenced
             axis_one 0%nat) = Returned (PyBool true) /\
  exists c b,
    calls (AxisCommand.invoke (mock_native mock_ok) AxisCommand.Is_referenced
             axis_one 0%nat) = [c] /\
    PyBool true = PyBool b /\
    (b = true <-> 0 < out_int (fst (mock_native mock_ok c 0%nat))).
Proof.
  split; [reflexivity|]. split; [reflexivity|].
  exact (proj2 (status_queries_read_the_out_parameter (mock_native mock_ok))
           AxisCommand.Is_referenced axis_one 0%nat (PyBool true)
           eq_refl eq_refl).
Defined.

(** X13, instance: a relative move by 5. *)
Lemma commands_are_the_documented_ones_witness :
  documented_commands (AxisCommand.Set_relative_target_position 5) <> [] /\
  calls (AxisCommand.invoke (mock_native mock_ok)
           (AxisCommand.Set_relative_target_position 5) axis_one 0%nat)
  = [PI_MVR 1 [x31] 5] /\
  is_error_query (PI_MVR 1 [x31] 5) = false /\
  In (mnemonic (PI_MVR 1 [x31] 5))
     (documented_commands (AxisCommand.Set_relative_target_position 5)).
Proof.
  assert (H : documented_commands (AxisCommand.Set_relative_target_position 5) <> [])
    by discriminate.
  split; [exact H|]. split; [reflexivity|]. split; [reflexivity|].
  exact (commands_are_the_documented_ones (mock_native mock_ok)
           (AxisCommand.Set_relative_target_position 5) axis_one 0%nat
           (PI_MVR 1 [x31] 5) [] H eq_refl eq_refl).
Defined.

(** X15, instance: the default listing into 512 bytes. *)
Lemma get_axes_id_dispatch_witness :
  0 < 512 /\
  calls (ControllerCommand.get_axes_id (mock_native mock_ok)
           ControllerCommand.get_axes_id_default_include_deactivated
           ControllerCommand.get_axes_id_default_nbytes (base axis_one) 0%nat)
  = [PI_qSAI_ALL 1 512] /\
  outcome (ControllerCommand.get_axes_id (mock_native mock_ok)
             ControllerCommand.get_axes_id_default_include_deactivated
             ControllerCommand.get_axes_id_default_nbytes (base axis_one) 0%nat)
  = Returned [49; 32; 50; 10]%N.
Proof.
  split; [reflexivity|].
  exact (proj1 (proj2 (get_axes_id_dispatch (mock_native mock_ok) true 512
                         (base axis_one) 0%nat eq_refl)) eq_refl).
Defined.
